(** * Beach parking status monitor (script2.py)

    A shallow embedding of the scraper: the page tree handed over by the
    HTML parser, the per-container label search of
    [scrape_parking_status], the bulk insert of [save_to_supabase], the
    driver [main] with its exit status, and the JSON text it prints.

    What the script calls and does not define is of two kinds.  The
    HTTP transport, the HTML parser, the database client, the clock,
    the environment variables and the file system are fields of
    [environment]: a run is a function of them.  The tree search and
    text extraction of bs4, and [json.dumps] and [json.loads], are
    embedded from their sources, on the part of their input the script
    can produce.

    Python strings are sequences of Unicode code points, so a [str] is a
    [list N]; the ASCII literals of the script are written with [lit]. *)

From Stdlib Require Import ZArith NArith List String Ascii Bool Lia.
From stdpp Require Import base option list gmap strings pretty.

Set Default Proof Using "Type".
Set Warnings "-register-all".
Open Scope list_scope.

(** ** Python strings *)

Abbreviation pystr := (list N).

Definition lit (s : string) : pystr :=
  List.map N_of_ascii (list_ascii_of_string s).

(** [p] is a prefix of [s]. *)
Fixpoint startswith (p s : pystr) : bool :=
  match p, s with
  | [], _ => true
  | _ :: _, [] => false
  | a :: p', b :: s' => N.eqb a b && startswith p' s'
  end.

(** [needle in hay] on two [str]s: the substring test. *)
Fixpoint py_in (needle hay : pystr) : bool :=
  startswith needle hay ||
  match hay with
  | [] => false
  | _ :: hay' => py_in needle hay'
  end.

Definition str_eqb (a b : pystr) : bool := bool_decide (a = b).

(** [x in l] for a list of strings ([sys.argv]). *)
Definition list_contains (x : pystr) (l : list pystr) : bool :=
  existsb (str_eqb x) l.

(** [str.isspace] on one code point: the code points CPython lists as
    whitespace. *)
Definition isspace (c : N) : bool :=
  ((9 <=? c) && (c <=? 13) || (28 <=? c) && (c <=? 32) ||
   (c =? 133) || (c =? 160) || (c =? 5760) ||
   (8192 <=? c) && (c <=? 8202) || (c =? 8232) || (c =? 8233) ||
   (c =? 8239) || (c =? 8287) || (c =? 12288))%N.

Fixpoint lstrip (s : pystr) : pystr :=
  match s with
  | [] => []
  | c :: s' => if isspace c then lstrip s' else s
  end.

Definition rstrip (s : pystr) : pystr := rev (lstrip (rev s)).

(** [s.strip()] *)
Definition strip (s : pystr) : pystr := rstrip (lstrip s).

(** [sep.join(parts)] *)
Fixpoint join (sep : pystr) (parts : list pystr) : pystr :=
  match parts with
  | [] => []
  | [p] => p
  | p :: rest => p ++ sep ++ join sep rest
  end.

(** Truth value of a [str]: the empty string is false. *)
Definition truthy (s : pystr) : bool :=
  match s with [] => false | _ :: _ => true end.

(** Truth value of [os.getenv(...)]: [None] and [''] are false. *)
Definition truthy_opt (o : option pystr) : bool :=
  match o with Some s => truthy s | None => false end.

(** ** The parsed page

    What [BeautifulSoup(content, 'html.parser')] hands back: a tree of
    tags and strings.  [NavigableString] and [CData] are the strings
    [get_text] counts as text; [Comment] stands for the others
    (comments, doctype, declarations).  An attribute value is a string,
    or a list of strings for the multi-valued attributes ([class]);
    [attrs] is the dict of the tag, one binding per name. *)

Inductive attr_value :=
| AttrStr (v : pystr)
| AttrList (vs : list pystr).

Inductive node :=
| NavigableString (text : pystr)
| CData (text : pystr)
| Comment (text : pystr)
| Tag (name : pystr) (attrs : list (string * attr_value)) (contents : list node).

(** [attrs.get(key)] *)
Fixpoint attr_get (key : string) (attrs : list (string * attr_value))
  : option attr_value :=
  match attrs with
  | [] => None
  | (k, v) :: rest => if String.eqb k key then Some v else attr_get key rest
  end.

(** [tag.descendants]: every node below [n], in document order. *)
Fixpoint descendants (n : node) : list node :=
  match n with
  | Tag _ _ cs => flat_map (fun c => c :: descendants c) cs
  | _ => []
  end.

(** An attribute matched against a string ([class_='PLA_linia']): a
    multi-valued attribute matches when one of its values is the string,
    or when its values joined by a space are. *)
Definition matches_str (want : pystr) (v : option attr_value) : bool :=
  match v with
  | None => false
  | Some (AttrStr s) => str_eqb s want
  | Some (AttrList vs) =>
      existsb (fun s => str_eqb s want) vs || str_eqb (join (lit " ") vs) want
  end.

(** An attribute matched against a callable ([id=lambda x: ...]): the
    callable receives [None] when the attribute is absent. *)
Definition matches_fn (f : option pystr -> bool) (v : option attr_value) : bool :=
  match v with
  | None => f None
  | Some (AttrStr s) => f (Some s)
  | Some (AttrList vs) =>
      existsb (fun s => f (Some s)) vs || f (Some (join (lit " ") vs))
  end.

Definition is_tag_named (nm : pystr) (n : node) : bool :=
  match n with
  | Tag name _ _ => str_eqb name nm
  | _ => false
  end.

Definition node_attr (key : string) (n : node) : option attr_value :=
  match n with
  | Tag _ attrs _ => attr_get key attrs
  | _ => None
  end.

(** [soup.find_all('div', class_='PLA_linia')] *)
Definition is_pla_linia (n : node) : bool :=
  is_tag_named (lit "div") n && matches_str (lit "PLA_linia") (node_attr "class" n).

Definition find_all_pla_linia (soup : node) : list node :=
  List.filter is_pla_linia (descendants soup).

(** [lambda x: x and 'Content1_Label' in x] *)
Definition beach_id (x : option pystr) : bool :=
  match x with
  | None => false
  | Some s => truthy s && py_in (lit "Content1_Label") s
  end.

(** [lambda x: x and 'Content1_lb' in x and 'Label' not in x] *)
Definition status_id (x : option pystr) : bool :=
  match x with
  | None => false
  | Some s => truthy s && py_in (lit "Content1_lb") s && negb (py_in (lit "Label") s)
  end.

Definition is_beach_label (n : node) : bool :=
  is_tag_named (lit "span") n && matches_fn beach_id (node_attr "id" n).

Definition is_status_label (n : node) : bool :=
  is_tag_named (lit "span") n && matches_fn status_id (node_attr "id" n).

(** [div.find('span', id=f)]: the first matching descendant, or [None]. *)
Definition find_span (p : node -> bool) (div : node) : option node :=
  List.find p (descendants div).

(** [tag.get_text(strip=True)]: the text strings below the tag, each
    one stripped, the empty ones left out, joined by the empty
    separator. *)
Definition stripped_string (n : node) : option pystr :=
  match n with
  | NavigableString s | CData s =>
      match strip s with
      | [] => None
      | s' => Some s'
      end
  | _ => None
  end.

Definition get_text_strip (n : node) : pystr :=
  List.concat (omap stripped_string (descendants n)).

(** ** Records *)

(** The dict literal [{"Date": ..., "Beach": ..., "Status": ...}]. *)
Record ParkingRecord := {
  Date : pystr;
  Beach : pystr;
  Status : pystr
}.

(** The dict literal built by [save_to_supabase] for one row. *)
Record db_record := {
  recorded_at : pystr;
  beach_name : pystr;
  status : pystr
}.

(** ** JSON text

    [json.dumps(obj, indent=2, ensure_ascii=False)] on the values the
    script builds: strings, lists and dicts.  A dict keeps its items in
    insertion order. *)

Inductive json :=
| JStr (s : pystr)
| JList (items : list json)
| JDict (items : list (pystr * json)).

Definition QUOTE : N := 34.
Definition BACKSLASH : N := 92.

(** The character for a hexadecimal digit, lower case. *)
Definition hex_digit (d : N) : N :=
  if (d <? 10)%N then (48 + d)%N else (87 + d)%N.

(** [ESCAPE_DCT]: the replacement of one character matched by
    [ESCAPE]; any other character stands for itself, whatever its code
    point. *)
Definition escape_char (c : N) : pystr :=
  if (c =? BACKSLASH)%N then [BACKSLASH; BACKSLASH]
  else if (c =? QUOTE)%N then [BACKSLASH; QUOTE]
  else if (c =? 8)%N then [BACKSLASH; 98%N]
  else if (c =? 12)%N then [BACKSLASH; 102%N]
  else if (c =? 10)%N then [BACKSLASH; 110%N]
  else if (c =? 13)%N then [BACKSLASH; 114%N]
  else if (c =? 9)%N then [BACKSLASH; 116%N]
  else if (c <? 32)%N then
    [BACKSLASH; 117%N; 48%N; 48%N; hex_digit (c / 16); hex_digit (c mod 16)]
  else [c].

(** [py_encode_basestring] *)
Definition encode_basestring (s : pystr) : pystr :=
  QUOTE :: flat_map escape_char s ++ [QUOTE].

(** ['\n' + ' ' * (2 * level)] *)
Definition newline_indent (level : nat) : pystr :=
  10%N :: repeat 32%N (2 * level).

(** [_iterencode] with [indent=2]: the item separator is [','], the key
    separator [': ']. *)
Fixpoint iterencode (level : nat) (v : json) : pystr :=
  match v with
  | JStr s => encode_basestring s
  | JList [] => lit "[]"
  | JList items =>
      lit "[" ++ newline_indent (S level) ++
      join (lit "," ++ newline_indent (S level))
           (List.map (iterencode (S level)) items) ++
      newline_indent level ++ lit "]"
  | JDict [] => lit "{}"
  | JDict items =>
      lit "{" ++ newline_indent (S level) ++
      join (lit "," ++ newline_indent (S level))
           (List.map (fun kv => encode_basestring (fst kv) ++ lit ": " ++
                                iterencode (S level) (snd kv)) items) ++
      newline_indent level ++ lit "}"
  end.

Definition dumps (v : json) : pystr := iterencode 0 v.

(** A record as the dict it is, keys in the order of the literal. *)
Definition record_json (r : ParkingRecord) : json :=
  JDict [(lit "Date", JStr (Date r));
         (lit "Beach", JStr (Beach r));
         (lit "Status", JStr (Status r))].

Definition records_json (rs : list ParkingRecord) : json :=
  JList (List.map record_json rs).

(** [json.loads] on the same fragment of JSON (strings, arrays,
    objects); a document with numbers or literals is outside it. *)

Definition hex_value (c : N) : option N :=
  if ((48 <=? c) && (c <=? 57))%N then Some (c - 48)%N
  else if ((97 <=? c) && (c <=? 102))%N then Some (c - 87)%N
  else if ((65 <=? c) && (c <=? 70))%N then Some (c - 55)%N
  else None.

Definition hex4 (a b c d : N) : option N :=
  x ← hex_value a; y ← hex_value b; z ← hex_value c; t ← hex_value d;
  Some (((x * 16 + y) * 16 + z) * 16 + t)%N.

(** The character a one-letter escape stands for. *)
Definition unescape (e : N) : option N :=
  if (e =? QUOTE)%N then Some QUOTE
  else if (e =? BACKSLASH)%N then Some BACKSLASH
  else if (e =? 47)%N then Some 47%N
  else if (e =? 98)%N then Some 8%N
  else if (e =? 102)%N then Some 12%N
  else if (e =? 110)%N then Some 10%N
  else if (e =? 114)%N then Some 13%N
  else if (e =? 116)%N then Some 9%N
  else None.

Definition is_high_surrogate (c : N) : bool := ((55296 <=? c) && (c <=? 56319))%N.
Definition is_low_surrogate (c : N) : bool := ((56320 <=? c) && (c <=? 57343))%N.
Definition join_surrogates (hi lo : N) : N :=
  (65536 + ((hi - 55296) * 1024 + (lo - 56320)))%N.

(** [scanstring] in strict mode, started after the opening quote:
    the decoded string and the text after the closing quote. *)
Fixpoint scanstring (s : pystr) : option (pystr * pystr) :=
  match s with
  | [] => None
  | c :: r =>
      if (c =? QUOTE)%N then Some ([], r)
      else if (c =? BACKSLASH)%N then
        match r with
        | [] => None
        | e :: r1 =>
            if (e =? 117)%N then
              match r1 with
              | h1 :: h2 :: h3 :: h4 :: r2 =>
                  match hex4 h1 h2 h3 h4 with
                  | None => None
                  | Some u =>
                      match r2 with
                      | b :: u' :: l1 :: l2 :: l3 :: l4 :: ((_ :: _) as r3) =>
                          if is_high_surrogate u && (b =? BACKSLASH)%N && (u' =? 117)%N then
                            match hex4 l1 l2 l3 l4 with
                            | None => None
                            | Some lo =>
                                if is_low_surrogate lo then
                                  '(str, rest) ← scanstring r3;
                                  Some (join_surrogates u lo :: str, rest)
                                else
                                  '(str, rest) ← scanstring r2;
                                  Some (u :: str, rest)
                            end
                          else
                            '(str, rest) ← scanstring r2;
                            Some (u :: str, rest)
                      | _ =>
                          '(str, rest) ← scanstring r2;
                          Some (u :: str, rest)
                      end
                  end
              | _ => None
              end
            else
              match unescape e with
              | None => None
              | Some ch =>
                  '(str, rest) ← scanstring r1;
                  Some (ch :: str, rest)
              end
        end
      else if (c <? 32)%N then None
      else
        '(str, rest) ← scanstring r;
        Some (c :: str, rest)
  end.

(** JSON whitespace: space, tab, line feed, carriage return. *)
Definition is_json_ws (c : N) : bool :=
  ((c =? 32) || (c =? 9) || (c =? 10) || (c =? 13))%N.

Fixpoint skip_ws (s : pystr) : pystr :=
  match s with
  | [] => []
  | c :: r => if is_json_ws c then skip_ws r else s
  end.

(** [dict[key] = value] on an insertion-ordered dict: a key already
    there keeps its place and takes the new value. *)
Fixpoint dict_set (k : pystr) (v : json) (d : list (pystr * json))
  : list (pystr * json) :=
  match d with
  | [] => [(k, v)]
  | (k', v') :: d' =>
      if str_eqb k' k then (k, v) :: d' else (k', v') :: dict_set k v d'
  end.

(** [scan_once], [JSONArray] and [JSONObject]; [fuel] bounds the
    number of nested calls, and [loads] gives it more than twice the
    length of the text, which no document can use up: every second call
    at least consumes a character. *)
Fixpoint scan_once (fuel : nat) (s : pystr) : option (json * pystr) :=
  match fuel with
  | 0 => None
  | S fuel' =>
      match s with
      | [] => None
      | c :: r =>
          if (c =? QUOTE)%N then
            '(str, rest) ← scanstring r; Some (JStr str, rest)
          else if (c =? 91)%N then
            match skip_ws r with
            | [] => None
            | c1 :: r1 =>
                if (c1 =? 93)%N then Some (JList [], r1)
                else
                  '(items, rest) ← array_items fuel' (c1 :: r1);
                  Some (JList items, rest)
            end
          else if (c =? 123)%N then
            match skip_ws r with
            | [] => None
            | c1 :: r1 =>
                if (c1 =? 125)%N then Some (JDict [], r1)
                else
                  '(items, rest) ← object_items fuel' [] (c1 :: r1);
                  Some (JDict items, rest)
            end
          else None
      end
  end
(** The loop of [JSONArray], entered at the first character of a value. *)
with array_items (fuel : nat) (s : pystr) : option (list json * pystr) :=
  match fuel with
  | 0 => None
  | S fuel' =>
      '(v, rest) ← scan_once fuel' s;
      match skip_ws rest with
      | [] => None
      | c :: r =>
          if (c =? 93)%N then Some ([v], r)
          else if (c =? 44)%N then
            '(vs, rest') ← array_items fuel' (skip_ws r);
            Some (v :: vs, rest')
          else None
      end
  end
(** The loop of [JSONObject], entered at the opening quote of a key. *)
with object_items (fuel : nat) (acc : list (pystr * json)) (s : pystr)
  : option (list (pystr * json) * pystr) :=
  match fuel with
  | 0 => None
  | S fuel' =>
      match s with
      | [] => None
      | q :: r =>
          if (q =? QUOTE)%N then
            '(key, rest) ← scanstring r;
            match skip_ws rest with
            | [] => None
            | c :: r1 =>
                if (c =? 58)%N then
                  '(v, rest1) ← scan_once fuel' (skip_ws r1);
                  let acc' := dict_set key v acc in
                  match skip_ws rest1 with
                  | [] => None
                  | c2 :: r2 =>
                      if (c2 =? 125)%N then Some (acc', r2)
                      else if (c2 =? 44)%N then
                        object_items fuel' acc' (skip_ws r2)
                      else None
                  end
                else None
            end
          else None
      end
  end.

(** [json.loads(text)]: one value, framed by optional whitespace. *)
Definition loads (text : pystr) : option json :=
  '(v, rest) ← scan_once (S (2 * length text)) (skip_ws text);
  match skip_ws rest with
  | [] => Some v
  | _ :: _ => None
  end.

(** ** The world the script runs in *)

(** What a call into a library does: it returns, or it raises. *)
Inductive attempt (A : Type) :=
| Done (a : A)
| Throws (cause : pystr).
Arguments Done {A} a.
Arguments Throws {A} cause.

(** A reading of the wall clock, in the three renderings the script
    asks for. *)
Record instant := {
  now_isoformat : pystr;      (* datetime.now().isoformat() *)
  utcnow_str : pystr;         (* str(datetime.utcnow()) *)
  utcnow_strftime : pystr     (* datetime.utcnow().strftime('%Y-%m-%d %H:%M:%S') *)
}.

Record response := {
  status_code : Z;
  content : pystr
}.

(** The client handle returned by [create_client]. *)
Record Client := {
  client_url : pystr;
  client_key : pystr
}.

(** Everything the run is given and does not change: arguments,
    environment variables, and the behaviour of the HTTP transport, the
    HTML parser, the database backend, the clock and the file system. *)
Record environment := {
  argv : list pystr;
  environ : gmap string pystr;
  requests_get : pystr -> nat -> attempt response;
  BeautifulSoup : pystr -> attempt node;
  create_client : pystr -> pystr -> attempt Client;
  insert_execute : Client -> string -> list db_record -> attempt (list (gmap string pystr));
  clock : nat -> instant;
  unwritable : pystr -> bool
}.

Inductive level := INFO | WARNING | ERROR.

(** The messages of the script, with the values they interpolate. *)
Inductive message :=
| MsgSupabaseEnvMissing
| MsgSupabaseInitialized
| MsgSupabaseInitFailed (cause : pystr)
| MsgAttemptingSave (n : nat)
| MsgSaved (n : nat)
| MsgSavedRow (beach status at_ : pystr)
| MsgNothingInserted
| MsgSaveError (e : pystr)
| MsgFetching (url : pystr)
| MsgFetched (code : Z)
| MsgNoDivs
| MsgFoundDivs (n : nat)
| MsgParsedBeach (i : nat) (beach status : pystr)
| MsgLabelNotFound (i : nat)
| MsgParsedRecords (n : nat)
| MsgFetchError (e : pystr)
| MsgProcessError (e : pystr)
| MsgStarting
| MsgCurrentUTC (t : pystr)
| MsgNoParkingData
| MsgSaveFailed
| MsgSkippingSave
| MsgJsonGenerated
| MsgProcessed (n : nat).

(** Everything the run changes.  The two logging handlers receive the
    same events, kept once in [w_log]; [w_stdout] holds what [print]
    wrote. *)
Record world := {
  w_ticks : nat;                                   (* clock readings taken *)
  w_log : list (level * message);
  w_stdout : list pystr;
  w_files : gmap pystr pystr;
  w_gets : list (pystr * nat);                     (* HTTP GETs issued *)
  w_inserts : list (string * list db_record)       (* bulk inserts issued *)
}.

Definition initial (files : gmap pystr pystr) : world :=
  {| w_ticks := 0; w_log := []; w_stdout := []; w_files := files;
     w_gets := []; w_inserts := [] |}.

(** ** Python control flow: state and exceptions *)

Inductive exn :=
| SystemExit (code : Z)
| RequestException (cause : pystr)
| KeyError (key : string)
| OSError (path : pystr)
| Exception (cause : pystr).

Inductive outcome (A : Type) :=
| Return (a : A)
| Raise (e : exn).
Arguments Return {A} a.
Arguments Raise {A} e.

Definition Py (A : Type) : Type := world -> outcome A * world.

#[global] Instance Py_ret : MRet Py := fun A a w => (Return a, w).

#[global] Instance Py_bind : MBind Py := fun A B f m w =>
  match m w with
  | (Return a, w') => f a w'
  | (Raise e, w') => (Raise e, w')
  end.

Definition raise {A} (e : exn) : Py A := fun w => (Raise e, w).

(** [try: body / except ...]: [handler e] is the clause that catches
    [e], if one does. *)
Definition try_except {A} (body : Py A) (handler : exn -> option (Py A)) : Py A :=
  fun w =>
    match body w with
    | (Return a, w') => (Return a, w')
    | (Raise e, w') =>
        match handler e with
        | Some h => h w'
        | None => (Raise e, w')
        end
    end.

(** [str(e)] for a caught exception. *)
Definition exn_str (e : exn) : pystr :=
  match e with
  | SystemExit c => []
  | RequestException s | OSError s | Exception s => s
  | KeyError k => lit "'" ++ lit k ++ lit "'"
  end.

(** [except Exception as e]: everything but [SystemExit]. *)
Definition is_Exception (e : exn) : bool :=
  match e with SystemExit _ => false | _ => true end.

(** [for x in l: body] *)
Fixpoint for_each {A} (l : list A) (body : A -> Py unit) : Py unit :=
  match l with
  | [] => mret tt
  | x :: l' => body x;; for_each l' body
  end.

(** [for i, x in enumerate(l): body], threading the variable the body
    assigns to. *)
Fixpoint for_enumerate {A St} (i : nat) (l : list A)
    (body : nat -> A -> St -> Py St) (acc : St) : Py St :=
  match l with
  | [] => mret acc
  | x :: l' => acc' ← body i x acc; for_enumerate (S i) l' body acc'
  end.

Definition logger (lv : level) (m : message) : Py unit := fun w =>
  (Return tt,
   {| w_ticks := w_ticks w; w_log := w_log w ++ [(lv, m)]; w_stdout := w_stdout w;
      w_files := w_files w; w_gets := w_gets w; w_inserts := w_inserts w |}).

(** [print(text)] *)
Definition print (text : pystr) : Py unit := fun w =>
  (Return tt,
   {| w_ticks := w_ticks w; w_log := w_log w; w_stdout := w_stdout w ++ [text];
      w_files := w_files w; w_gets := w_gets w; w_inserts := w_inserts w |}).

(** [sys.exit(code)] *)
Definition sys_exit {A} (code : Z) : Py A := raise (SystemExit code).

(** [str(n)] for a length. *)
Definition str_of_nat (n : nat) : pystr :=
  lit (pretty n).

Section Run.

Variable E : environment.

(** [datetime.now()] and [datetime.utcnow()]: one more reading of the
    clock. *)
Definition read_clock : Py instant := fun w =>
  (Return (clock E (w_ticks w)),
   {| w_ticks := S (w_ticks w); w_log := w_log w; w_stdout := w_stdout w;
      w_files := w_files w; w_gets := w_gets w; w_inserts := w_inserts w |}).

(** [os.getenv(name)] *)
Definition getenv (name : string) : option pystr := environ E !! name.

(** [os.environ[name]] *)
Definition environ_getitem (name : string) : Py pystr :=
  match environ E !! name with
  | Some v => mret v
  | None => raise (KeyError name)
  end.

(** [requests.get(url, timeout=t)] followed by
    [response.raise_for_status()], which raises on a 4xx or 5xx
    status. *)
Definition http_get (url : pystr) (timeout : nat) : Py response := fun w =>
  let w' := {| w_ticks := w_ticks w; w_log := w_log w; w_stdout := w_stdout w;
               w_files := w_files w; w_gets := w_gets w ++ [(url, timeout)];
               w_inserts := w_inserts w |} in
  match requests_get E url timeout with
  | Done r => (Return r, w')
  | Throws cause => (Raise (RequestException cause), w')
  end.

Definition raise_for_status (r : response) : Py unit :=
  if ((400 <=? status_code r) && (status_code r <? 600))%Z
  then raise (RequestException (lit "HTTPError"))
  else mret tt.

Definition parse_html (c : pystr) : Py node :=
  match BeautifulSoup E c with
  | Done soup => mret soup
  | Throws cause => raise (Exception cause)
  end.

(** [supabase.table(name).insert(rows).execute()], giving
    [result.data]. *)
Definition table_insert_execute (c : Client) (table : string) (rows : list db_record)
  : Py (list (gmap string pystr)) := fun w =>
  let w' := {| w_ticks := w_ticks w; w_log := w_log w; w_stdout := w_stdout w;
               w_files := w_files w; w_gets := w_gets w;
               w_inserts := w_inserts w ++ [(table, rows)] |} in
  match insert_execute E c table rows with
  | Done data => (Return data, w')
  | Throws cause => (Raise (Exception cause), w')
  end.

(** [record[key]] on a row the backend returned. *)
Definition row_getitem (row : gmap string pystr) (key : string) : Py pystr :=
  match row !! key with
  | Some v => mret v
  | None => raise (KeyError key)
  end.

(** [with open(path, 'a') as f: f.write(text)] *)
Definition open_append_write (path text : pystr) : Py unit := fun w =>
  if unwritable E path then (Raise (OSError path), w)
  else
    (Return tt,
     {| w_ticks := w_ticks w; w_log := w_log w; w_stdout := w_stdout w;
        w_files := <[path := default [] (w_files w !! path) ++ text]> (w_files w);
        w_gets := w_gets w; w_inserts := w_inserts w |}).

Definition setup_supabase : Py (option Client) :=
  let url := getenv "SUPABASE_URL" in
  let key := getenv "SUPABASE_KEY" in
  match url, key with
  | Some ((_ :: _) as url), Some ((_ :: _) as key) =>
      match create_client E url key with
      | Done client =>
          logger INFO MsgSupabaseInitialized;;
          mret (Some client)
      | Throws e =>
          logger ERROR (MsgSupabaseInitFailed e);;
          mret None
      end
  | _, _ =>
      logger ERROR MsgSupabaseEnvMissing;;
      mret None
  end.

Definition save_to_supabase (supabase : Client) (parking_data : list ParkingRecord)
  : Py bool :=
  try_except
    (let db_records :=
       List.map (fun item => {| recorded_at := Date item;
                                beach_name := Beach item;
                                status := Status item |}) parking_data in
     logger INFO (MsgAttemptingSave (length db_records));;
     data ← table_insert_execute supabase "parking_status" db_records;
     match data with
     | _ :: _ =>
         logger INFO (MsgSaved (length data));;
         for_each data (fun record =>
           b ← row_getitem record "beach_name";
           s ← row_getitem record "status";
           t ← row_getitem record "recorded_at";
           logger INFO (MsgSavedRow b s t));;
         mret true
     | [] =>
         logger WARNING MsgNothingInserted;;
         mret false
     end)
    (fun e =>
       if is_Exception e
       then Some (logger ERROR (MsgSaveError (exn_str e));; mret false)
       else None).

Definition scrape_parking_status : Py (list ParkingRecord) :=
  let url := lit "http://mout.cime.es/ParkingsPlatges.aspx" in
  try_except
    (logger INFO (MsgFetching url);;
     response ← http_get url 10;
     raise_for_status response;;
     logger INFO (MsgFetched (status_code response));;
     soup ← parse_html (content response);
     let pla_linia_divs := find_all_pla_linia soup in
     match pla_linia_divs with
     | [] =>
         logger WARNING MsgNoDivs;;
         mret []
     | _ :: _ =>
         logger INFO (MsgFoundDivs (length pla_linia_divs));;
         t ← read_clock;
         let current_datetime := now_isoformat t in
         parking_data ←
           for_enumerate 0 pla_linia_divs (fun i div parking_data =>
             let beach_label := find_span is_beach_label div in
             let status_label := find_span is_status_label div in
             match beach_label, status_label with
             | Some beach_label, Some status_label =>
                 let beach_name := get_text_strip beach_label in
                 let status := get_text_strip status_label in
                 let parking_info :=
                   {| Date := current_datetime; Beach := beach_name; Status := status |} in
                 logger INFO (MsgParsedBeach (i + 1) beach_name status);;
                 mret (parking_data ++ [parking_info])
             | _, _ =>
                 logger WARNING (MsgLabelNotFound (i + 1));;
                 mret parking_data
             end) [];
         logger INFO (MsgParsedRecords (length parking_data));;
         mret parking_data
     end)
    (fun e =>
       match e with
       | RequestException _ =>
           Some (logger ERROR (MsgFetchError (exn_str e));; mret [])
       | SystemExit _ => None
       | _ => Some (logger ERROR (MsgProcessError (exn_str e));; mret [])
       end).

(** The text of the workflow summary. *)
Definition summary_text (t : instant) (parking_data : list ParkingRecord) : pystr :=
  let header :=
    [10%N] ++ lit "## Beach Parking Monitor Results" ++ [10%N; 10%N] ++
    lit "- **Execution Time**: " ++ utcnow_strftime t ++ lit " UTC" ++ [10%N] ++
    lit "- **Records Processed**: " ++ str_of_nat (length parking_data) ++ [10%N] ++
    lit "- **Beaches Monitored**: " ++ join (lit ", ") (List.map Beach parking_data) ++
    [10%N; 10%N] ++ lit "### Current Status:" ++ [10%N] in
  fold_left (fun summary item =>
               summary ++ lit "- **" ++ Beach item ++ lit "**: " ++ Status item ++ [10%N])
            parking_data header.

Definition main : Py unit :=
  logger INFO MsgStarting;;
  let save_to_db := negb (list_contains (lit "--no-db") (argv E)) in
  let output_json := list_contains (lit "--json") (argv E) in
  t ← read_clock;
  logger INFO (MsgCurrentUTC (utcnow_str t));;
  parking_data ← scrape_parking_status;
  match parking_data with
  | [] => logger ERROR MsgNoParkingData;; sys_exit 1
  | _ :: _ => mret tt
  end;;
  (if save_to_db then
     supabase ← setup_supabase;
     match supabase with
     | Some supabase =>
         success ← save_to_supabase supabase parking_data;
         if negb success
         then logger ERROR MsgSaveFailed;; sys_exit 1
         else mret tt
     | None =>
         logger ERROR MsgSkippingSave;; sys_exit 1
     end
   else mret tt);;
  (if output_json || negb save_to_db then
     let json_output := dumps (records_json parking_data) in
     print json_output;;
     logger INFO MsgJsonGenerated
   else mret tt);;
  logger INFO (MsgProcessed (length parking_data));;
  if truthy_opt (getenv "GITHUB_ACTIONS") then
    t ← read_clock;
    let summary := summary_text t parking_data in
    path ← environ_getitem "GITHUB_STEP_SUMMARY";
    open_append_write path summary
  else mret tt.

End Run.

(** The exit status of the process: 0 when [main] returns, the code
    given to [sys.exit], 1 for an exception nobody caught. *)
Definition exit_status (o : outcome unit) : Z :=
  match o with
  | Return _ => 0
  | Raise (SystemExit code) => code
  | Raise _ => 1
  end.


(** ** What one container contributes

    The body of the loop of [scrape_parking_status], read as a function
    of the container, and the test the loop makes, read off the
    descendants of the container. *)

Definition paired (now : pystr) (div : node) : option ParkingRecord :=
  match find_span is_beach_label div, find_span is_status_label div with
  | Some b, Some s =>
      Some {| Date := now; Beach := get_text_strip b; Status := get_text_strip s |}
  | _, _ => None
  end.

(** The container holds a name label and a status label. *)
Definition has_both_labels (div : node) : bool :=
  existsb is_beach_label (descendants div) &&
  existsb is_status_label (descendants div).

Definition SCRAPE_URL : pystr := lit "http://mout.cime.es/ParkingsPlatges.aspx".

(** 4xx and 5xx: the statuses [raise_for_status] raises on. *)
Definition is_error_status (code : Z) : bool :=
  ((400 <=? code) && (code <? 600))%Z.

(** Two worlds that differ by log entries only. *)
Definition logged (lg : list (level * message)) (w : world) : world :=
  {| w_ticks := w_ticks w; w_log := w_log w ++ lg; w_stdout := w_stdout w;
     w_files := w_files w; w_gets := w_gets w; w_inserts := w_inserts w |}.

(** ** The fetch step and its result, read off the environment *)

Inductive fetch_result :=
| FetchFailed (cause : pystr)
| ParseFailed (cause : pystr)
| Page (soup : node).

(** The first half of [scrape_parking_status]: the GET, the status
    check and the parse. *)
Definition fetch_page (E : environment) : fetch_result :=
  match requests_get E SCRAPE_URL 10 with
  | Throws cause => FetchFailed cause
  | Done r =>
      if is_error_status (status_code r) then FetchFailed (lit "HTTPError")
      else match BeautifulSoup E (content r) with
           | Throws cause => ParseFailed cause
           | Done soup => Page soup
           end
  end.

(** The records of a run whose clock stands at reading [tick]. *)
Definition extracted (E : environment) (tick : nat) : list ParkingRecord :=
  match fetch_page E with
  | Page soup =>
      omap (paired (now_isoformat (clock E tick))) (find_all_pla_linia soup)
  | _ => []
  end.

(** How often [scrape_parking_status] reads the clock. *)
Definition clock_reads (E : environment) : nat :=
  match fetch_page E with
  | Page soup => match find_all_pla_linia soup with [] => 0 | _ :: _ => 1 end
  | _ => 0
  end.

(** ** The persistence step, read off the environment *)

(** The rows [save_to_supabase] sends. *)
Definition to_db_records (parking_data : list ParkingRecord) : list db_record :=
  List.map (fun item => {| recorded_at := Date item;
                           beach_name := Beach item;
                           status := Status item |}) parking_data.

(** A returned row has the three columns the log line reads. *)
Definition row_complete (row : gmap string pystr) : bool :=
  bool_decide (is_Some (row !! "beach_name"%string)) &&
  bool_decide (is_Some (row !! "status"%string)) &&
  bool_decide (is_Some (row !! "recorded_at"%string)).

(** What [save_to_supabase] answers. *)
Definition confirmed (E : environment) (c : Client) (parking_data : list ParkingRecord)
  : bool :=
  match insert_execute E c "parking_status" (to_db_records parking_data) with
  | Done ((_ :: _) as rows) => forallb row_complete rows
  | Done [] => false
  | Throws _ => false
  end.

(** What [setup_supabase] answers. *)
Definition client_for (E : environment) : option Client :=
  match environ E !! "SUPABASE_URL"%string, environ E !! "SUPABASE_KEY"%string with
  | Some ((_ :: _) as url), Some ((_ :: _) as key) =>
      match create_client E url key with
      | Done c => Some c
      | Throws _ => None
      end
  | _, _ => None
  end.

(** ** The driver, read off the environment *)

Definition save_to_db (E : environment) : bool :=
  negb (list_contains (lit "--no-db") (argv E)).

Definition output_json (E : environment) : bool :=
  list_contains (lit "--json") (argv E).

(** The persistence step of [main] went through: it was skipped, or the
    client was there and the write was confirmed. *)
Definition persistence_ok (E : environment) (records : list ParkingRecord) : bool :=
  if save_to_db E then
    match client_for E with
    | Some c => confirmed E c records
    | None => false
    end
  else true.

(** [main] gets past extraction and persistence. *)
Definition steps_succeed (E : environment) (records : list ParkingRecord) : bool :=
  match records with
  | [] => false
  | _ :: _ => persistence_ok E records
  end.

Definition orchestrator_mode (E : environment) : bool :=
  truthy_opt (environ E !! "GITHUB_ACTIONS"%string).

(** How [main] ends. *)
Definition main_outcome (E : environment) (records : list ParkingRecord)
  : outcome unit :=
  if steps_succeed E records then
    if orchestrator_mode E then
      match environ E !! "GITHUB_STEP_SUMMARY"%string with
      | None => Raise (KeyError "GITHUB_STEP_SUMMARY")
      | Some path => if unwritable E path then Raise (OSError path) else Return tt
      end
    else Return tt
  else Raise (SystemExit 1).

(** What [main] prints. *)
Definition main_stdout (E : environment) (records : list ParkingRecord)
  : list pystr :=
  if steps_succeed E records && (output_json E || negb (save_to_db E))
  then [dumps (records_json records)]
  else [].

(** The bulk inserts [main] issues. *)
Definition main_inserts (E : environment) (records : list ParkingRecord)
  : list (string * list db_record) :=
  match records with
  | [] => []
  | _ :: _ =>
      if save_to_db E then
        match client_for E with
        | Some _ => [("parking_status"%string, to_db_records records)]
        | None => []
        end
      else []
  end.

(** The files after [main]. *)
Definition main_files (E : environment) (records : list ParkingRecord)
    (t : instant) (files : gmap pystr pystr) : gmap pystr pystr :=
  if steps_succeed E records && orchestrator_mode E then
    match environ E !! "GITHUB_STEP_SUMMARY"%string with
    | Some path =>
        if unwritable E path then files
        else <[path := default [] (files !! path) ++ summary_text t records]> files
    | None => files
    end
  else files.

(** What [scrape_parking_status] logs: the cause of a failed fetch (or of
    a failed parse) at level ERROR, and nothing at that level for a page
    that was fetched and parsed. *)
Definition scrape_log (E : environment) (lg : list (level * message)) : Prop :=
  match fetch_page E with
  | FetchFailed cause => In (ERROR, MsgFetchError cause) lg
  | ParseFailed cause => In (ERROR, MsgProcessError cause) lg
  | Page _ => Forall (fun e => fst e <> ERROR) lg
  end.

(** ** What the properties speak about *)

(** Every record has a name and a status that are not empty. *)
Definition fields_nonempty (records : list ParkingRecord) : Prop :=
  Forall (fun r => Beach r <> [] /\ Status r <> []) records.

(** The driver is handed different values for a failed fetch and for a
    page without records. *)
Definition reported_distinctly (E_failed E_empty : environment) (w : world) : Prop :=
  fst (scrape_parking_status E_failed w) <> fst (scrape_parking_status E_empty w).


(** Reading the three fields back from a parsed document. *)
Fixpoint dict_get (k : pystr) (d : list (pystr * json)) : option json :=
  match d with
  | [] => None
  | (k', v) :: d' => if str_eqb k' k then Some v else dict_get k d'
  end.

Definition field (k : string) (d : list (pystr * json)) : option pystr :=
  match dict_get (lit k) d with
  | Some (JStr s) => Some s
  | _ => None
  end.

Definition record_of_json (v : json) : option ParkingRecord :=
  match v with
  | JDict d =>
      da ← field "Date" d; b ← field "Beach" d; s ← field "Status" d;
      Some {| Date := da; Beach := b; Status := s |}
  | _ => None
  end.

Definition records_of_json (v : json) : option (list ParkingRecord) :=
  match v with
  | JList items => mapM record_of_json items
  | _ => None
  end.

(** A value Python can hold: the keys of a dict are distinct. *)
Fixpoint distinct_keys (v : json) : Prop :=
  match v with
  | JStr _ => True
  | JList items =>
      (fix all (l : list json) : Prop :=
         match l with
         | [] => True
         | x :: l' => distinct_keys x /\ all l'
         end) items
  | JDict items =>
      NoDup (List.map fst items) /\
      (fix all (l : list (pystr * json)) : Prop :=
         match l with
         | [] => True
         | kv :: l' => distinct_keys (snd kv) /\ all l'
         end) items
  end.

(** The text of a value opens with a quote, a bracket or a brace. *)
Definition opens_value (t : pystr) : Prop :=
  exists c t', t = c :: t' /\ (c = QUOTE \/ c = 91%N \/ c = 123%N).

(** The round trip for one value, as [scan_once] sees it: given the
    text of [v] followed by anything, and fuel beyond twice the length
    of that text, it returns [v] and what follows. *)
Definition reads_back (v : json) : Prop :=
  forall level rest fuel,
    2 * length (iterencode level v) < fuel ->
    scan_once fuel (iterencode level v ++ rest) = Some (v, rest).

(** ** Sample runs *)

Definition span (id text : string) : node :=
  Tag (lit "span") [("id"%string, AttrStr (lit id))] [NavigableString (lit text)].

Definition pla_linia (contents : list node) : node :=
  Tag (lit "div") [("class"%string, AttrList [lit "PLA_linia"])] contents.

Definition document (contents : list node) : node :=
  Tag (lit "[document]") [] contents.

(** Two containers, the second one without a name label. *)
Definition sample_page : node :=
  document
    [pla_linia [span "ctl00_Content1_Label1" " Platja X ";
                span "ctl00_Content1_lbEstat1" "Tancada"];
     pla_linia [span "ctl00_Content1_lbEstat2" "Oberta"]].

(** One container whose two labels hold no text. *)
Definition blank_page : node :=
  document
    [pla_linia [Tag (lit "span") [("id"%string, AttrStr (lit "ctl00_Content1_Label1"))] [];
                Tag (lit "span") [("id"%string, AttrStr (lit "ctl00_Content1_lbEstat1"))]
                    [NavigableString (lit "  ")]]].

(** A page without any container. *)
Definition empty_page : node := document [Tag (lit "p") [] [NavigableString (lit "closed")]].

Definition sample_clock (n : nat) : instant :=
  {| now_isoformat := lit "2024-07-01T10:00:0" ++ str_of_nat n;
     utcnow_str := lit "2024-07-01 08:00:0" ++ str_of_nat n;
     utcnow_strftime := lit "2024-07-01 08:00:0" ++ str_of_nat n |}.

Definition sample_row (r : db_record) : gmap string pystr :=
  {[ "beach_name"%string := beach_name r;
     "status"%string := status r;
     "recorded_at"%string := recorded_at r ]}.

(** A backend that stores every row it is given. *)
Definition env_with (args : list string) (vars : list (string * string))
    (get : attempt response) (page : node) : environment :=
  {| argv := List.map lit (("script2.py" :: args)%list);
     environ := list_to_map (List.map (fun kv => (fst kv, lit (snd kv))) vars);
     requests_get := fun _ _ => get;
     BeautifulSoup := fun _ => Done page;
     create_client := fun u k => Done {| client_url := u; client_key := k |};
     insert_execute := fun _ _ rows => Done (List.map sample_row rows);
     clock := sample_clock;
     unwritable := fun _ => false |}.

Definition ok_response : attempt response :=
  Done {| status_code := 200; content := lit "<html>" |}.

Definition credentials : list (string * string) :=
  [("SUPABASE_URL", "https://db.example"); ("SUPABASE_KEY", "secret")]%string.

Definition sample_client : Client :=
  {| client_url := lit "https://db.example"; client_key := lit "secret" |}.


(** [--no-db --json] on the sample page. *)
Definition E_nodb : environment :=
  env_with ["--no-db"; "--json"]%string [] ok_response sample_page.

(** [--json] with persistence on. *)
Definition E_json : environment :=
  env_with ["--json"]%string credentials ok_response sample_page.

(** The labels are there, their text is not. *)
Definition E_blank : environment :=
  env_with ["--no-db"]%string [] ok_response blank_page.

(** The GET times out. *)
Definition E_timeout : environment :=
  env_with ["--no-db"]%string [] (Throws (lit "Read timed out")) sample_page.

(** The server answers 503. *)
Definition E_unavailable : environment :=
  env_with ["--no-db"]%string []
           (Done {| status_code := 503; content := [] |}) sample_page.

(** The page has no container. *)
Definition E_no_containers : environment :=
  env_with ["--no-db"]%string [] ok_response empty_page.




(** Persistence requested, no credentials in the environment. *)
Definition E_no_credentials : environment :=
  env_with [] [] ok_response sample_page.

(** The same run as [E], against a backend that answers every insert
    with [answer]. *)
Definition with_backend (E : environment) (answer : attempt (list (gmap string pystr)))
  : environment :=
  {| argv := argv E;
     environ := environ E;
     requests_get := requests_get E;
     BeautifulSoup := BeautifulSoup E;
     create_client := create_client E;
     insert_execute := fun _ _ _ => answer;
     clock := clock E;
     unwritable := unwritable E |}.

(** The backend confirms no row, without raising. *)
Definition E_backend_silent : environment := with_backend E_json (Done []).


(** ** Further notions the properties speak about *)

(** A string with no whitespace at either end. *)
Definition trimmed (s : pystr) : Prop :=
  (forall c t, s = c :: t -> isspace c = false) /\
  (forall c, last s = Some c -> isspace c = false).

(** Nothing but whitespace in the text strings below a node. *)
Definition no_visible_text (n : node) : Prop :=
  Forall (fun d => match d with
                   | NavigableString s | CData s => forallb isspace s = true
                   | _ => True
                   end) (descendants n).

(** The log line the loop of [scrape_parking_status] writes for the
    container at position [i] (counted from 0). *)
Definition container_entry (now : pystr) (i : nat) (div : node) : level * message :=
  match paired now div with
  | Some r => (INFO, MsgParsedBeach (i + 1) (Beach r) (Status r))
  | None => (WARNING, MsgLabelNotFound (i + 1))
  end.

Definition is_warning (e : level * message) : bool :=
  match fst e with WARNING => true | _ => false end.

(** The number of nodes of a tree. *)
Fixpoint node_size (n : node) : nat :=
  match n with
  | Tag _ _ cs => S (list_sum (List.map node_size cs))
  | _ => 1
  end.

(** The same run as [E], with a parser that answers [answer]. *)
Definition with_parser (E : environment) (answer : attempt node) : environment :=
  {| argv := argv E;
     environ := environ E;
     requests_get := requests_get E;
     BeautifulSoup := fun _ => answer;
     create_client := create_client E;
     insert_execute := insert_execute E;
     clock := clock E;
     unwritable := unwritable E |}.


(** The parser raises. *)
Definition E_parse_error : environment :=
  with_parser E_nodb (Throws (lit "unexpected end of data")).

(** A container of class [PLA_linia] inside another one. *)
Definition nested_page : node :=
  document
    [pla_linia
       [pla_linia [span "ctl00_Content1_Label1" "Platja X";
                   span "ctl00_Content1_lbEstat1" "Tancada"]]].

Definition E_nested : environment :=
  env_with ["--no-db"]%string [] ok_response nested_page.

(** The backend hands back a row without the column [status]. *)
Definition E_backend_partial : environment :=
  with_backend E_json
    (Done [ {[ "beach_name"%string := lit "Platja X";
               "recorded_at"%string := lit "2024-07-01T10:00:01" ]} ]).

(** * Properties *)

#[local] Arguments lit : simpl never.
#[local] Arguments SCRAPE_URL : simpl never.
#[local] Arguments str_of_nat : simpl never.

(** ** Running the monad *)

(** Run the primitive steps of a computation on an explicit world. *)
Ltac py_run :=
  cbv beta iota delta
    [mbind Py_bind mret Py_ret raise sys_exit logger print read_clock http_get
     raise_for_status parse_html try_except table_insert_execute row_getitem
     open_append_write environ_getitem getenv logged is_Exception];
  cbn [w_ticks w_log w_stdout w_files w_gets w_inserts].

Tactic Notation "py_run" "in" hyp(H) :=
  cbv beta iota delta
    [mbind Py_bind mret Py_ret raise sys_exit logger print read_clock http_get
     raise_for_status parse_html try_except table_insert_execute row_getitem
     open_append_write environ_getitem getenv logged is_Exception] in H;
  cbn [w_ticks w_log w_stdout w_files w_gets w_inserts] in H.

Lemma bind_run {A B} (m : Py A) (f : A -> Py B) (w : world) :
  (m ≫= f) w =
  match m w with
  | (Return a, w') => f a w'
  | (Raise e, w') => (Raise e, w')
  end.
Proof. reflexivity. Qed.

Lemma bind_return {A B} (m : Py A) (f : A -> Py B) w a w' :
  m w = (Return a, w') -> (m ≫= f) w = f a w'.
Proof. intros H. rewrite bind_run, H. reflexivity. Qed.

Lemma bind_raise {A B} (m : Py A) (f : A -> Py B) w e w' :
  m w = (Raise e, w') -> (m ≫= f) w = (Raise e, w').
Proof. intros H. rewrite bind_run, H. reflexivity. Qed.

Lemma logged_nil w : logged [] w = w.
Proof. destruct w. unfold logged. cbn. rewrite app_nil_r. reflexivity. Qed.

Lemma logged_logged a b w : logged b (logged a w) = logged (a ++ b) w.
Proof. unfold logged. cbn. rewrite <- app_assoc. reflexivity. Qed.

Lemma logger_run lv m w : logger lv m w = (Return tt, logged [(lv, m)] w).
Proof. reflexivity. Qed.

(** ** The label search *)

Lemma find_existsb {A} (p : A -> bool) (l : list A) :
  is_Some (List.find p l) <-> existsb p l = true.
Proof.
  induction l as [|x l IH]; cbn.
  - split; [intros [? ?]; discriminate | discriminate].
  - destruct (p x); cbn; [split; eauto | exact IH].
Qed.

Lemma paired_is_Some now div :
  is_Some (paired now div) <-> has_both_labels div = true.
Proof.
  unfold paired, has_both_labels, find_span.
  rewrite andb_true_iff, <- !find_existsb.
  destruct (List.find is_beach_label _), (List.find is_status_label _);
    split; try (intros [[? ?] [? ?]]); try (intros [? ?]);
    try discriminate; eauto.
Qed.

Lemma paired_None now div :
  paired now div = None <-> has_both_labels div = false.
Proof.
  rewrite <- not_true_iff_false, <- paired_is_Some, eq_None_not_Some.
  reflexivity.
Qed.

Lemma omap_paired_filter now divs :
  omap (paired now) divs = omap (paired now) (List.filter has_both_labels divs).
Proof.
  induction divs as [|d divs IH]; cbn; [reflexivity|].
  destruct (has_both_labels d) eqn:Hd; cbn.
  - destruct (paired now d); cbn; rewrite IH; reflexivity.
  - apply paired_None with (now := now) in Hd. rewrite Hd. exact IH.
Qed.

Lemma length_omap_paired now divs :
  length (omap (paired now) divs) = length (List.filter has_both_labels divs).
Proof.
  induction divs as [|d divs IH]; cbn; [reflexivity|].
  destruct (has_both_labels d) eqn:Hd.
  - apply paired_is_Some with (now := now) in Hd. destruct Hd as [r Hr].
    rewrite Hr. cbn. rewrite IH. reflexivity.
  - apply paired_None with (now := now) in Hd. rewrite Hd. exact IH.
Qed.

Lemma filter_length_le {A} (p : A -> bool) (l : list A) :
  length (List.filter p l) <= length l.
Proof.
  induction l as [|x l IH]; cbn; [lia|]. destruct (p x); cbn; lia.
Qed.

(** ** The loop of [scrape_parking_status] *)

Lemma for_enumerate_log {A St} (body : nat -> A -> St -> Py St)
    (f : A -> St -> St) (P : level * message -> Prop) :
  (forall i x acc w,
     exists lg, body i x acc w = (Return (f x acc), logged lg w) /\ Forall P lg) ->
  forall l i acc w,
    exists lg,
      for_enumerate i l body acc w
      = (Return (fold_left (fun a x => f x a) l acc), logged lg w) /\
      Forall P lg.
Proof.
  intros Hbody. induction l as [|x l IH]; intros i acc w; cbn.
  - exists []. rewrite logged_nil. split; [reflexivity | constructor].
  - destruct (Hbody i x acc w) as (lg1 & H1 & HP1).
    destruct (IH (S i) (f x acc) (logged lg1 w)) as (lg2 & H2 & HP2).
    exists (lg1 ++ lg2). rewrite (bind_return _ _ _ _ _ H1), H2, logged_logged.
    split; [reflexivity | apply Forall_app; auto].
Qed.

Lemma fold_left_paired now divs acc :
  fold_left (fun a d => a ++ from_option (fun r => [r]) [] (paired now d)) divs acc
  = acc ++ omap (paired now) divs.
Proof.
  revert acc. induction divs as [|d divs IH]; intros acc; cbn.
  - rewrite app_nil_r. reflexivity.
  - rewrite IH. destruct (paired now d); cbn.
    + rewrite <- app_assoc. reflexivity.
    + rewrite app_nil_r. reflexivity.
Qed.

(** [scrape_parking_status] always returns: the records of the page, or
    the empty list.  It issues one GET, reads the clock at most once
    and otherwise only logs. *)
Lemma scrape_run E w :
  exists lg,
    scrape_parking_status E w
    = (Return (extracted E (w_ticks w)),
       {| w_ticks := clock_reads E + w_ticks w;
          w_log := w_log w ++ lg;
          w_stdout := w_stdout w;
          w_files := w_files w;
          w_gets := w_gets w ++ [(SCRAPE_URL, 10)];
          w_inserts := w_inserts w |}) /\
    scrape_log E lg.
Proof.
  unfold scrape_parking_status, scrape_log, extracted, clock_reads, fetch_page.
  fold SCRAPE_URL. unfold is_error_status. py_run.
  destruct (requests_get E SCRAPE_URL 10) as [r|cause]; py_run.
  2:{ rewrite <- app_assoc. eexists. split; [reflexivity|]. cbn. auto. }
  destruct ((400 <=? status_code r)%Z && (status_code r <? 600)%Z); py_run.
  { rewrite <- app_assoc. eexists. split; [reflexivity|]. cbn. auto. }
  destruct (BeautifulSoup E (content r)) as [soup|cause]; py_run.
  2:{ rewrite <- !app_assoc. eexists. split; [reflexivity|]. cbn. auto. }
  destruct (find_all_pla_linia soup) as [|d divs] eqn:Hdivs; py_run.
  { rewrite <- !app_assoc. eexists. split; [reflexivity|].
    cbn. repeat constructor; discriminate. }
  set (now := now_isoformat (clock E (w_ticks w))).
  match goal with
  | |- context [for_enumerate 0 ?ds ?b ?a0 ?w0] =>
      assert (exists lg,
               for_enumerate 0 ds b a0 w0
               = (Return (fold_left
                            (fun a d => a ++ from_option (fun r => [r]) [] (paired now d))
                            ds a0),
                  logged lg w0) /\
               Forall (fun e => fst e <> ERROR) lg) as (lg & Hlg & Hinfo)
  end.
  { apply for_enumerate_log with
      (f := fun d acc => acc ++ from_option (fun r => [r]) [] (paired now d)).
    intros i x acc w0. unfold paired.
    destruct (find_span is_beach_label x), (find_span is_status_label x); py_run;
      eexists; cbn [from_option]; rewrite ?(app_nil_r acc);
      (split; [reflexivity | repeat constructor; discriminate]). }
  rewrite Hlg, fold_left_paired. py_run.
  rewrite <- !app_assoc. eexists. split; [reflexivity|].
  cbn [app]. repeat (constructor; [discriminate|]).
  apply Forall_app. split; [exact Hinfo | repeat constructor; discriminate].
Qed.

Lemma scrape_returns E w :
  fst (scrape_parking_status E w) = Return (extracted E (w_ticks w)).
Proof. destruct (scrape_run E w) as (lg & -> & _). reflexivity. Qed.

(** [main] reads the clock once before it calls
    [scrape_parking_status]: the records of the run are those of the
    second reading. *)
Lemma scrape_returns_in_main E w w1 :
  w_ticks w1 = S (w_ticks w) ->
  fst (scrape_parking_status E w1) = Return (extracted E (S (w_ticks w))).
Proof. intros <-. apply scrape_returns. Qed.


(** ** [setup_supabase] and [save_to_supabase] *)

Lemma setup_run E w :
  exists lg, setup_supabase E w = (Return (client_for E), logged lg w).
Proof.
  unfold setup_supabase, client_for. py_run.
  destruct (environ E !! "SUPABASE_URL"%string) as [[|a url]|];
    try (eexists; reflexivity).
  destruct (environ E !! "SUPABASE_KEY"%string) as [[|b key]|];
    try (eexists; reflexivity).
  destruct (create_client E (a :: url) (b :: key)); py_run;
    eexists; reflexivity.
Qed.

(** The loop that logs the saved rows stops at the first row that lacks
    a column. *)
Lemma log_rows_run (rows : list (gmap string pystr)) w :
  exists lg o,
    for_each rows (fun record =>
       b ← row_getitem record "beach_name";
       s ← row_getitem record "status";
       t ← row_getitem record "recorded_at";
       logger INFO (MsgSavedRow b s t)) w
    = (o, logged lg w) /\
    (forallb row_complete rows = true -> o = Return tt) /\
    (forallb row_complete rows = false -> exists k, o = Raise (KeyError k)).
Proof.
  revert w. induction rows as [|row rows IH]; intros w.
  - exists [], (Return tt). rewrite logged_nil. cbn.
    split; [reflexivity | split; [reflexivity | discriminate]].
  - assert (Hstop : forall k,
              row_complete row = false ->
              exists lg o,
                (Raise (KeyError k), w) = (o : outcome unit, logged lg w) /\
                (row_complete row && forallb row_complete rows = true -> o = Return tt) /\
                (row_complete row && forallb row_complete rows = false ->
                 exists k, o = Raise (KeyError k))).
    { intros k Hk. exists [], (Raise (KeyError k)). rewrite logged_nil, Hk. cbn.
      split; [reflexivity | split; [discriminate | eauto]]. }
    cbn [for_each forallb]. py_run.
    destruct (row !! "beach_name"%string) as [b|] eqn:Hb; py_run;
      [|apply Hstop; unfold row_complete; rewrite Hb; reflexivity].
    destruct (row !! "status"%string) as [s|] eqn:Hs; py_run;
      [|apply Hstop; unfold row_complete; rewrite Hb, Hs; reflexivity].
    destruct (row !! "recorded_at"%string) as [t|] eqn:Ht; py_run;
      [|apply Hstop; unfold row_complete; rewrite Hb, Hs, Ht; reflexivity].
    destruct (IH (logged [(INFO, MsgSavedRow b s t)] w)) as (lg & o & Hrun & Htrue & Hfalse).
    py_run in Hrun. rewrite Hrun.
    exists ((INFO, MsgSavedRow b s t) :: lg), o.
    unfold logged. cbn [w_ticks w_log w_stdout w_files w_gets w_inserts].
    rewrite <- app_assoc. cbn [app].
    assert (Hrow : row_complete row = true).
    { unfold row_complete. rewrite Hb, Hs, Ht. reflexivity. }
    rewrite Hrow. cbn [andb].
    destruct o; auto.
Qed.

(** [save_to_supabase] always returns; it issues one bulk insert of all
    the rows and otherwise only logs. *)
Lemma save_run E c parking_data w :
  exists lg,
    save_to_supabase E c parking_data w
    = (Return (confirmed E c parking_data),
       {| w_ticks := w_ticks w;
          w_log := w_log w ++ lg;
          w_stdout := w_stdout w;
          w_files := w_files w;
          w_gets := w_gets w;
          w_inserts :=
            w_inserts w ++ [("parking_status"%string, to_db_records parking_data)] |}).
Proof.
  unfold save_to_supabase, confirmed. fold (to_db_records parking_data). py_run.
  destruct (insert_execute E c "parking_status" (to_db_records parking_data))
    as [[|row rows]|cause]; py_run;
    try (eexists; rewrite <- ?app_assoc; reflexivity).
  match goal with
  | |- context [for_each (row :: rows) ?b ?w0] =>
      destruct (log_rows_run (row :: rows) w0) as (lg & o & Hrun & Htrue & Hfalse)
  end.
  py_run in Hrun. rewrite Hrun.
  destruct (forallb row_complete (row :: rows)).
  - rewrite (Htrue eq_refl). eexists. rewrite <- !app_assoc. reflexivity.
  - destruct (Hfalse eq_refl) as [k ->]. cbn.
    eexists. rewrite <- !app_assoc. reflexivity.
Qed.

(** ** The driver *)

(** [main] in one equation: how it ends and what it leaves behind. *)
Lemma main_run E w :
  let records := extracted E (S (w_ticks w)) in
  exists lg ticks,
    main E w
    = (main_outcome E records,
       {| w_ticks := ticks;
          w_log := w_log w ++ lg;
          w_stdout := w_stdout w ++ main_stdout E records;
          w_files :=
            main_files E records (clock E (clock_reads E + S (w_ticks w))) (w_files w);
          w_gets := w_gets w ++ [(SCRAPE_URL, 10)];
          w_inserts := w_inserts w ++ main_inserts E records |}).
Proof.
  intros records. subst records. unfold main.
  fold (save_to_db E). fold (output_json E).
  rewrite bind_run, logger_run, bind_run. unfold read_clock at 1.
  cbn [logged w_ticks w_log w_stdout w_files w_gets w_inserts].
  rewrite bind_run, logger_run. cbn [logged w_ticks w_log w_stdout w_files w_gets w_inserts].
  rewrite bind_run.
  match goal with
  | |- context [scrape_parking_status E ?w0] =>
      destruct (scrape_run E w0) as (lg1 & Hs & _); rewrite Hs; clear Hs
  end.
  cbn [logged w_ticks w_log w_stdout w_files w_gets w_inserts].
  generalize (extracted E (S (w_ticks w))). intros records.
  unfold main_outcome, main_stdout, main_files, main_inserts, steps_succeed,
    persistence_ok, orchestrator_mode.
  destruct records as [|r0 rs].
  { py_run. cbn. rewrite ?app_nil_r, <- ?app_assoc. eexists _, _. reflexivity. }
  set (records := r0 :: rs).
  rewrite bind_run. cbn [mret Py_ret]. rewrite bind_run.
  set (emit := output_json E || negb (save_to_db E)). clearbody emit.
  assert (Htail : forall w0 lg0,
    w_log w0 = w_log w ++ lg0 ->
    w_ticks w0 = clock_reads E + S (w_ticks w) ->
    w_files w0 = w_files w ->
    exists lg ticks,
      ((if emit
        then print (dumps (records_json records));; logger INFO MsgJsonGenerated
        else mret ());;
       logger INFO (MsgProcessed (length records));;
       (if truthy_opt (getenv E "GITHUB_ACTIONS")
        then t ← read_clock E;
             path ← environ_getitem E "GITHUB_STEP_SUMMARY";
             open_append_write E path (summary_text t records)
        else mret ())) w0
      = (if truthy_opt (environ E !! "GITHUB_ACTIONS"%string)
         then match environ E !! "GITHUB_STEP_SUMMARY"%string with
              | Some path =>
                  if unwritable E path then Raise (OSError path) else Return ()
              | None => Raise (KeyError "GITHUB_STEP_SUMMARY")
              end
         else Return (),
         {| w_ticks := ticks;
            w_log := w_log w ++ lg;
            w_stdout :=
              w_stdout w0 ++
              (if emit then [dumps (records_json records)] else []);
            w_files :=
              if truthy_opt (environ E !! "GITHUB_ACTIONS"%string)
              then match environ E !! "GITHUB_STEP_SUMMARY"%string with
                   | Some path =>
                       if unwritable E path then w_files w
                       else <[path := default [] (w_files w !! path) ++
                                      summary_text (clock E (clock_reads E + S (w_ticks w)))
                                        records]> (w_files w)
                   | None => w_files w
                   end
              else w_files w;
            w_gets := w_gets w0;
            w_inserts := w_inserts w0 |})).
  { intros w0 lg0 Hlog Hticks Hfiles. py_run.
    destruct emit; py_run;
      rewrite ?Hlog, ?Hticks, ?Hfiles;
      (destruct (truthy_opt (environ E !! "GITHUB_ACTIONS"%string)); py_run;
       [destruct (environ E !! "GITHUB_STEP_SUMMARY"%string) as [path|]; py_run;
        [destruct (unwritable E path); py_run|]|]);
      rewrite ?Hlog, ?Hticks, ?Hfiles, ?app_nil_r, <- ?app_assoc;
      eexists _, _; reflexivity. }
  destruct (save_to_db E); cbn [negb orb andb].
  - rewrite bind_run.
    match goal with
    | |- context [setup_supabase E ?w0] =>
        destruct (setup_run E w0) as [lg2 Hset]; rewrite Hset; clear Hset
    end.
    destruct (client_for E) as [c|].
    + rewrite bind_run.
      match goal with
      | |- context [save_to_supabase E c records ?w0] =>
          destruct (save_run E c records w0) as [lg3 Hsave]; rewrite Hsave; clear Hsave
      end.
      unfold logged. cbn [w_ticks w_log w_stdout w_files w_gets w_inserts].
      destruct (confirmed E c records); cbn [negb andb].
      * py_run.
        match goal with
        | |- context [let (_, _) := ?m ?w0 in _] =>
            edestruct (Htail w0) as (lg & ticks & Ht)
        end; [cbn; rewrite <- ?app_assoc; reflexivity | reflexivity | reflexivity |].
        py_run in Ht. rewrite Ht.
        cbn [w_ticks w_log w_stdout w_files w_gets w_inserts].
        eexists _, _. reflexivity.
      * py_run. rewrite ?app_nil_r, <- ?app_assoc. eexists _, _. reflexivity.
    + py_run. rewrite ?app_nil_r, <- ?app_assoc. eexists _, _. reflexivity.
  - py_run.
    match goal with
    | |- context [let (_, _) := ?m ?w0 in _] =>
        edestruct (Htail w0) as (lg & ticks & Ht)
    end; [cbn; rewrite <- ?app_assoc; reflexivity | reflexivity | reflexivity |].
    py_run in Ht. rewrite Ht.
    cbn [w_ticks w_log w_stdout w_files w_gets w_inserts].
    rewrite ?app_nil_r. eexists _, _. reflexivity.
Qed.

(** ** Extraction *)

Lemma Forall2_paired now divs :
  Forall2 (fun rec div =>
             exists b s,
               find_span is_beach_label div = Some b /\
               find_span is_status_label div = Some s /\
               rec = {| Date := now; Beach := get_text_strip b;
                        Status := get_text_strip s |})
          (omap (paired now) divs) (List.filter has_both_labels divs).
Proof.
  induction divs as [|d divs IH]; cbn; [constructor|].
  destruct (has_both_labels d) eqn:Hd.
  - unfold paired at 1.
    destruct (find_span is_beach_label d) as [b|] eqn:Hb;
      [destruct (find_span is_status_label d) as [s|] eqn:Hs|].
    + cbn. constructor; [eauto | exact IH].
    + apply paired_is_Some with (now := now) in Hd. unfold paired in Hd.
      rewrite Hb, Hs in Hd. destruct Hd; discriminate.
    + apply paired_is_Some with (now := now) in Hd. unfold paired in Hd.
      rewrite Hb in Hd. destruct Hd; discriminate.
  - apply paired_None with (now := now) in Hd. rewrite Hd. exact IH.
Qed.

Lemma fetch_page_ok E r soup :
  requests_get E SCRAPE_URL 10 = Done r ->
  is_error_status (status_code r) = false ->
  BeautifulSoup E (content r) = Done soup ->
  fetch_page E = Page soup.
Proof. intros Hget Hst Hparse. unfold fetch_page. rewrite Hget, Hst, Hparse. reflexivity. Qed.

(** C1: for a page that was fetched and parsed, with its N containers
    of class [PLA_linia] of which M hold both a name label and a status
    label, [scrape_parking_status] returns exactly M records (M <= N),
    one per qualifying container and in their order, each carrying the
    texts of the two labels of its container. *)
Theorem C1_one_record_per_qualifying_container
    (E : environment) (w : world) (r : response) (soup : node) :
  requests_get E SCRAPE_URL 10 = Done r ->
  is_error_status (status_code r) = false ->
  BeautifulSoup E (content r) = Done soup ->
  let containers := find_all_pla_linia soup in
  let qualifying := List.filter has_both_labels containers in
  exists records w',
    scrape_parking_status E w = (Return records, w') /\
    length records = length qualifying /\
    length qualifying <= length containers /\
    Forall2 (fun rec div =>
               exists b s,
                 find_span is_beach_label div = Some b /\
                 find_span is_status_label div = Some s /\
                 Beach rec = get_text_strip b /\
                 Status rec = get_text_strip s)
            records qualifying.
Proof.
  intros Hget Hst Hparse containers qualifying.
  destruct (scrape_run E w) as (lg & Hrun & _).
  eexists _, _. split; [exact Hrun|].
  unfold extracted. rewrite (fetch_page_ok _ _ _ Hget Hst Hparse).
  fold containers. split; [apply length_omap_paired|].
  split; [apply filter_length_le|].
  eapply Forall2_impl; [apply Forall2_paired|].
  intros rec div (b & s & Hb & Hs & ->). exists b, s. auto.
Qed.

(** C1 on the sample page: two containers, one of them with both
    labels, one record. *)
Lemma C1_witness :
  requests_get E_nodb SCRAPE_URL 10
  = Done {| status_code := 200; content := lit "<html>" |} /\
  exists records w',
    scrape_parking_status E_nodb (initial ∅) = (Return records, w') /\
    length records = 1 /\
    1 <= 2 /\
    Forall2 (fun rec div =>
               exists b s,
                 find_span is_beach_label div = Some b /\
                 find_span is_status_label div = Some s /\
                 Beach rec = get_text_strip b /\
                 Status rec = get_text_strip s)
            records
            (List.filter has_both_labels (find_all_pla_linia sample_page)).
Proof.
  split; [reflexivity|].
  exact (C1_one_record_per_qualifying_container E_nodb (initial ∅)
           {| status_code := 200; content := lit "<html>" |} sample_page
           eq_refl eq_refl eq_refl).
Defined.

(** C7: the records of one run all carry the same timestamp: the
    clock is read once, before the loop over the containers, and that
    one reading stamps every record, however the clock moves between
    readings. *)
Theorem C7_one_timestamp_per_batch (E : environment) (w : world) :
  exists records w',
    scrape_parking_status E w = (Return records, w') /\
    Forall (fun rec => Date rec = now_isoformat (clock E (w_ticks w))) records /\
    (forall r1 r2, In r1 records -> In r2 records -> Date r1 = Date r2) /\
    w_ticks w' <= S (w_ticks w).
Proof.
  destruct (scrape_run E w) as (lg & Hrun & _).
  eexists _, _. split; [exact Hrun|].
  assert (Hall : Forall (fun rec => Date rec = now_isoformat (clock E (w_ticks w)))
                        (extracted E (w_ticks w))).
  { unfold extracted. destruct (fetch_page E) as [| |soup]; try constructor.
    induction (find_all_pla_linia soup) as [|d divs IH]; cbn; [constructor|].
    unfold paired at 1.
    destruct (find_span is_beach_label d), (find_span is_status_label d);
      cbn; auto. }
  split; [exact Hall|]. split.
  - intros r1 r2 H1 H2. rewrite Forall_forall in Hall.
    rewrite (Hall r1), (Hall r2) by (apply list_elem_of_In; assumption).
    reflexivity.
  - cbn. unfold clock_reads. destruct (fetch_page E) as [| |soup]; [lia|lia|].
    destruct (find_all_pla_linia soup); lia.
Qed.

(** C2, counterexample: on a page whose one container holds both
    labels, neither with any text, a record is emitted, and its name and
    its status are empty. *)
Lemma C2_blank_labels_give_empty_fields :
  exists records w',
    scrape_parking_status E_blank (initial ∅) = (Return records, w') /\
    records = [{| Date := now_isoformat (sample_clock 0); Beach := []; Status := [] |}] /\
    ~ fields_nonempty records.
Proof.
  eexists _, _. split; [vm_compute; reflexivity|]. split; [reflexivity|].
  intros H. inversion H as [|? ? [Hb _] _]; subst. apply Hb. reflexivity.
Qed.

(** C2, amended: every record emitted comes from a container in which
    both a name label and a status label were found, and its two fields
    are the stripped texts of these two nodes, which are empty when the
    nodes hold no text; a container that lacks either label yields no
    record at all. *)
Theorem C2_records_come_from_both_labels (E : environment) (w : world) :
  exists records w',
    scrape_parking_status E w = (Return records, w') /\
    Forall (fun rec =>
              exists soup div b s,
                fetch_page E = Page soup /\
                In div (find_all_pla_linia soup) /\
                find_span is_beach_label div = Some b /\
                find_span is_status_label div = Some s /\
                Beach rec = get_text_strip b /\
                Status rec = get_text_strip s)
           records /\
    (forall soup,
       fetch_page E = Page soup ->
       length records = length (List.filter has_both_labels (find_all_pla_linia soup)) /\
       (Forall (fun div => find_span is_beach_label div = None \/
                           find_span is_status_label div = None)
               (find_all_pla_linia soup) ->
        records = [])).
Proof.
  destruct (scrape_run E w) as (lg & Hrun & _).
  eexists _, _. split; [exact Hrun|].
  unfold extracted. destruct (fetch_page E) as [c|c|soup].
  1,2: split; [constructor | intros ? ?; discriminate].
  set (now := now_isoformat (clock E (w_ticks w))). split.
  - apply Forall_forall. intros rec Hin.
    apply list_elem_of_omap in Hin. destruct Hin as (div & Hdiv & Hrec).
    apply list_elem_of_In in Hdiv.
    unfold paired in Hrec.
    destruct (find_span is_beach_label div) as [b|] eqn:Hb; [|discriminate].
    destruct (find_span is_status_label div) as [s|] eqn:Hs; [|discriminate].
    injection Hrec as <-. exists soup, div, b, s. auto 10.
  - intros soup' [= <-]. split; [apply length_omap_paired|].
    intros Hnone. induction Hnone as [|d divs Hd _ IH]; cbn; [reflexivity|].
    unfold paired at 1. destruct Hd as [-> | ->]; [exact IH|].
    destruct (find_span is_beach_label d); exact IH.
Qed.

(** ** Fetch failure and empty result *)

Lemma fetch_failed_iff E cause :
  fetch_page E = FetchFailed cause <->
  requests_get E SCRAPE_URL 10 = Throws cause \/
  exists r, requests_get E SCRAPE_URL 10 = Done r /\
            is_error_status (status_code r) = true /\
            cause = lit "HTTPError".
Proof.
  unfold fetch_page. destruct (requests_get E SCRAPE_URL 10) as [r|c].
  - destruct (is_error_status (status_code r)) eqn:Hst.
    + split.
      * intros [= <-]. right. eauto.
      * intros [?|(r' & [= <-] & _ & ->)]; [discriminate | reflexivity].
    + split.
      * destruct (BeautifulSoup E (content r)); discriminate.
      * intros [?|(r' & [= <-] & Hst' & _)]; [discriminate | congruence].
  - split.
    + intros [= <-]. auto.
    + intros [[= <-]|(r' & ? & _)]; [reflexivity | discriminate].
Qed.

Lemma extracted_nil_of_no_pair E tick soup :
  fetch_page E = Page soup ->
  List.filter has_both_labels (find_all_pla_linia soup) = [] ->
  extracted E tick = [].
Proof.
  intros Hpage Hnone. unfold extracted. rewrite Hpage.
  apply length_zero_iff_nil. rewrite length_omap_paired, Hnone. reflexivity.
Qed.

Lemma main_exit_of_no_records E w :
  extracted E (S (w_ticks w)) = [] -> fst (main E w) = Raise (SystemExit 1).
Proof.
  intros Hnil. destruct (main_run E w) as (lg & ticks & Hrun).
  rewrite Hrun, Hnil. reflexivity.
Qed.

(** C3, counterexample: a GET that times out and a page without
    containers hand the driver the same value, the empty list. *)
Lemma C3_timeout_and_empty_page_look_alike :
  fetch_page E_timeout = FetchFailed (lit "Read timed out") /\
  fetch_page E_no_containers = Page empty_page /\
  fst (scrape_parking_status E_timeout (initial ∅)) = Return [] /\
  fst (scrape_parking_status E_no_containers (initial ∅)) = Return [] /\
  ~ reported_distinctly E_timeout E_no_containers (initial ∅).
Proof.
  assert (H1 : fst (scrape_parking_status E_timeout (initial ∅)) = Return [])
    by (vm_compute; reflexivity).
  assert (H2 : fst (scrape_parking_status E_no_containers (initial ∅)) = Return [])
    by (vm_compute; reflexivity).
  repeat split; try reflexivity; try assumption.
  unfold reported_distinctly. rewrite H1, H2. intros H. apply H. reflexivity.
Qed.

(** C3, amended: on a transport error, a timeout or a 4xx/5xx status
    [scrape_parking_status] logs the cause at level ERROR and returns
    the empty list; for a page without containers or without a paired
    record it returns the empty list as well, with nothing logged at
    level ERROR.  The driver sees the list only, and exits with status 1
    in both cases. *)
Theorem C3_failed_fetch_and_empty_result_both_return_nil
    (E : environment) (w : world) :
  (forall cause,
     fetch_page E = FetchFailed cause ->
     exists lg w',
       scrape_parking_status E w = (Return [], w') /\
       w_log w' = w_log w ++ lg /\
       In (ERROR, MsgFetchError cause) lg) /\
  (forall soup,
     fetch_page E = Page soup ->
     List.filter has_both_labels (find_all_pla_linia soup) = [] ->
     exists lg w',
       scrape_parking_status E w = (Return [], w') /\
       w_log w' = w_log w ++ lg /\
       Forall (fun e => fst e <> ERROR) lg) /\
  (forall cause,
     fetch_page E = FetchFailed cause ->
     fst (main E w) = Raise (SystemExit 1) /\ exit_status (fst (main E w)) = 1%Z) /\
  (forall soup,
     fetch_page E = Page soup ->
     List.filter has_both_labels (find_all_pla_linia soup) = [] ->
     fst (main E w) = Raise (SystemExit 1) /\ exit_status (fst (main E w)) = 1%Z).
Proof.
  destruct (scrape_run E w) as (lg & Hrun & Hlog). unfold scrape_log in Hlog.
  assert (Hexit : extracted E (S (w_ticks w)) = [] ->
                  fst (main E w) = Raise (SystemExit 1) /\
                  exit_status (fst (main E w)) = 1%Z).
  { intros Hnil. rewrite (main_exit_of_no_records _ _ Hnil). auto. }
  split; [|split; [|split]].
  - intros cause Hf. rewrite Hf in Hlog. exists lg. eexists.
    rewrite Hrun. unfold extracted. rewrite Hf.
    split; [reflexivity | split; [reflexivity | exact Hlog]].
  - intros soup Hp Hnone. rewrite Hp in Hlog. exists lg. eexists.
    rewrite Hrun, (extracted_nil_of_no_pair _ _ _ Hp Hnone).
    split; [reflexivity | split; [reflexivity | exact Hlog]].
  - intros cause Hf. apply Hexit. unfold extracted. rewrite Hf. reflexivity.
  - intros soup Hp Hnone. apply Hexit.
    eapply extracted_nil_of_no_pair; eassumption.
Qed.

(** ** Exit status *)





(** ** Persistence *)

(** C5: [save_to_supabase] issues exactly one insert, for the table
    [parking_status], with one row per record of the whole list.  It
    answers true only if the backend hands back at least one row; when
    the backend raises, or hands back no row without raising, it
    answers false. *)
Theorem C5_one_bulk_insert
    (E : environment) (c : Client) (parking_data : list ParkingRecord) (w : world) :
  let rows :=
    List.map (fun item => {| recorded_at := Date item;
                             beach_name := Beach item;
                             status := Status item |}) parking_data in
  exists b w',
    save_to_supabase E c parking_data w = (Return b, w') /\
    w_inserts w' = w_inserts w ++ [("parking_status"%string, rows)] /\
    length rows = length parking_data /\
    (b = true ->
     exists data, insert_execute E c "parking_status" rows = Done data /\ data <> []) /\
    ((exists cause, insert_execute E c "parking_status" rows = Throws cause) ->
     b = false) /\
    (insert_execute E c "parking_status" rows = Done [] -> b = false).
Proof.
  intros rows. destruct (save_run E c parking_data w) as [lg Hrun].
  eexists _, _. split; [exact Hrun|]. cbn [w_inserts].
  split; [reflexivity|]. split; [apply length_map|].
  unfold confirmed, to_db_records. fold rows.
  destruct (insert_execute E c "parking_status" rows) as [[|row data]|cause].
  - split; [intros [=]|]. split; intros; reflexivity.
  - split; [intros _; eexists; split; [reflexivity | discriminate]|].
    split; [intros [? [=]] | intros [=]].
  - split; [intros [=]|]. split; intros; reflexivity.
Qed.

(** ** Flags *)




(** ** The workflow summary *)







(** ** JSON: the text [dumps] writes is read back by [loads] *)

Lemma json_nested_ind (P : json -> Prop) :
  (forall s, P (JStr s)) ->
  (forall items, Forall P items -> P (JList items)) ->
  (forall items, Forall (fun kv => P (snd kv)) items -> P (JDict items)) ->
  forall v, P v.
Proof.
  intros HS HL HD. fix IH 1. intros [s|items|items].
  - apply HS.
  - apply HL. induction items as [|x items IHi]; constructor; [apply IH | exact IHi].
  - apply HD. induction items as [|[k x] items IHi]; constructor; [apply IH | exact IHi].
Qed.

Lemma distinct_keys_list items :
  distinct_keys (JList items) <-> Forall distinct_keys items.
Proof.
  induction items as [|x items IH]; cbn.
  - split; [constructor | trivial].
  - cbn in IH. rewrite IH. split.
    + intros [? ?]. constructor; assumption.
    + intros H. inversion H; subst. split; assumption.
Qed.

Lemma distinct_keys_dict items :
  distinct_keys (JDict items) <->
  NoDup (List.map fst items) /\ Forall (fun kv => distinct_keys (snd kv)) items.
Proof.
  cbn. apply and_iff_compat_l.
  induction items as [|x items IH]; cbn.
  - split; [constructor | trivial].
  - rewrite IH. split.
    + intros [? ?]. constructor; assumption.
    + intros H. inversion H; subst. split; assumption.
Qed.

(** *** Strings *)

Lemma scanstring_plain c t :
  (32 <= c)%N -> c <> QUOTE -> c <> BACKSLASH ->
  scanstring (c :: t) = '(str, rest) ← scanstring t; Some (c :: str, rest).
Proof.
  intros Hc Hq Hb. cbn [scanstring].
  destruct (N.eqb_spec c QUOTE); [congruence|].
  destruct (N.eqb_spec c BACKSLASH); [congruence|].
  destruct (N.ltb_spec c 32); [lia | reflexivity].
Qed.

(** A [\uXXXX] escape that is no high surrogate stands for one
    character, whatever follows. *)
Lemma scanstring_u h1 h2 h3 h4 u t :
  hex4 h1 h2 h3 h4 = Some u ->
  is_high_surrogate u = false ->
  scanstring (BACKSLASH :: 117%N :: h1 :: h2 :: h3 :: h4 :: t)
  = '(str, rest) ← scanstring t; Some (u :: str, rest).
Proof.
  intros Hhex Hhi.
  change (scanstring (BACKSLASH :: 117%N :: h1 :: h2 :: h3 :: h4 :: t))
    with (match hex4 h1 h2 h3 h4 with
          | None => None
          | Some u =>
              match t with
              | b :: u' :: l1 :: l2 :: l3 :: l4 :: ((_ :: _) as r3) =>
                  if is_high_surrogate u && (b =? BACKSLASH)%N && (u' =? 117)%N then
                    match hex4 l1 l2 l3 l4 with
                    | None => None
                    | Some lo =>
                        if is_low_surrogate lo then
                          '(str, rest) ← scanstring r3;
                          Some (join_surrogates u lo :: str, rest)
                        else
                          '(str, rest) ← scanstring t;
                          Some (u :: str, rest)
                    end
                  else
                    '(str, rest) ← scanstring t;
                    Some (u :: str, rest)
              | _ =>
                  '(str, rest) ← scanstring t;
                  Some (u :: str, rest)
              end
          end).
  rewrite Hhex, Hhi. cbn [andb].
  destruct t as [|? [|? [|? [|? [|? [|? [|? ?]]]]]]]; reflexivity.
Qed.

Lemma scanstring_escape_char c t :
  scanstring (escape_char c ++ t)
  = '(str, rest) ← scanstring t; Some (c :: str, rest).
Proof.
  destruct (N.ltb_spec c 32) as [Hlt|Hge].
  - assert (Hn : exists n, n < 32 /\ c = N.of_nat n).
    { exists (N.to_nat c). split; [lia | rewrite N2Nat.id; reflexivity]. }
    destruct Hn as (n & Hn & ->). clear Hlt.
    do 32 (destruct n as [|n];
           [first [reflexivity
                  | apply scanstring_u; reflexivity] |]).
    lia.
  - destruct (N.eqb_spec c QUOTE) as [->|Hq]; [reflexivity|].
    destruct (N.eqb_spec c BACKSLASH) as [->|Hb]; [reflexivity|].
    assert (Hesc : escape_char c = [c]).
    { unfold escape_char.
      destruct (N.eqb_spec c BACKSLASH); [congruence|].
      destruct (N.eqb_spec c QUOTE); [congruence|].
      destruct (N.eqb_spec c 8); [lia|].
      destruct (N.eqb_spec c 12); [lia|].
      destruct (N.eqb_spec c 10); [lia|].
      destruct (N.eqb_spec c 13); [lia|].
      destruct (N.eqb_spec c 9); [lia|].
      destruct (N.ltb_spec c 32); [lia | reflexivity]. }
    rewrite Hesc. apply scanstring_plain; assumption.
Qed.

Lemma scanstring_escaped s rest :
  scanstring (flat_map escape_char s ++ QUOTE :: rest) = Some (s, rest).
Proof.
  induction s as [|c s IH]; cbn [flat_map app].
  - reflexivity.
  - rewrite <- app_assoc, scanstring_escape_char, IH. reflexivity.
Qed.

(** *** Layout *)

Lemma skip_ws_stop c t : is_json_ws c = false -> skip_ws (c :: t) = c :: t.
Proof. intros H. cbn. rewrite H. reflexivity. Qed.

Lemma skip_ws_newline_indent level t :
  skip_ws (newline_indent level ++ t) = skip_ws t.
Proof.
  unfold newline_indent. cbn [app skip_ws is_json_ws N.eqb orb].
  change (is_json_ws 10) with true. cbn iota.
  induction (2 * level) as [|n IH]; [reflexivity|]. exact IH.
Qed.

Lemma opens_value_app t rest : opens_value t -> opens_value (t ++ rest).
Proof. intros (c & t' & -> & Hc). exists c, (t' ++ rest). auto. Qed.

Lemma skip_ws_opens t : opens_value t -> skip_ws t = t.
Proof.
  intros (c & t' & -> & Hc). apply skip_ws_stop.
  destruct Hc as [-> | [-> | ->]]; reflexivity.
Qed.

Lemma iterencode_str level s :
  iterencode level (JStr s) = QUOTE :: flat_map escape_char s ++ [QUOTE].
Proof. reflexivity. Qed.

Lemma iterencode_list level v vs :
  iterencode level (JList (v :: vs))
  = 91%N :: newline_indent (S level) ++
    join (44%N :: newline_indent (S level))
         (List.map (iterencode (S level)) (v :: vs)) ++
    newline_indent level ++ [93%N].
Proof. reflexivity. Qed.

Lemma iterencode_dict level kv kvs :
  iterencode level (JDict (kv :: kvs))
  = 123%N :: newline_indent (S level) ++
    join (44%N :: newline_indent (S level))
         (List.map (fun kv => encode_basestring (fst kv) ++ [58%N; 32%N] ++
                              iterencode (S level) (snd kv)) (kv :: kvs)) ++
    newline_indent level ++ [125%N].
Proof. reflexivity. Qed.

Lemma iterencode_opens level v : opens_value (iterencode level v).
Proof.
  destruct v as [s|[|v vs]|[|kv kvs]].
  - rewrite iterencode_str. eexists _, _. split; [reflexivity | auto].
  - exists 91%N, [93%N]. split; [reflexivity | auto].
  - rewrite iterencode_list. eexists _, _. split; [reflexivity | auto].
  - exists 123%N, [125%N]. split; [reflexivity | auto].
  - rewrite iterencode_dict. eexists _, _. split; [reflexivity | auto].
Qed.

Lemma join_cons_cons sep (p q : pystr) rest :
  join sep (p :: q :: rest) = p ++ sep ++ join sep (q :: rest).
Proof. reflexivity. Qed.

Lemma dict_set_fresh k v acc :
  ~ In k (List.map fst acc) -> dict_set k v acc = acc ++ [(k, v)].
Proof.
  induction acc as [|[k' v'] acc IH]; cbn; [reflexivity|].
  intros Hk. unfold str_eqb. rewrite bool_decide_eq_false_2 by tauto.
  rewrite IH by tauto. reflexivity.
Qed.

(** *** Values *)

Lemma array_items_read level items rest fuel :
  items <> [] ->
  Forall reads_back items ->
  let text := join (44%N :: newline_indent level) (List.map (iterencode level) items) in
  2 * length text + 1 < fuel ->
  array_items fuel (text ++ newline_indent (pred level) ++ 93%N :: rest)
  = Some (items, rest).
Proof.
  intros Hne Hall. revert fuel.
  induction Hall as [|v vs Hv Hvs IH]; [congruence|]. clear Hne.
  intros fuel text Hfuel. subst text.
  destruct fuel as [|fuel]; [lia|]. cbn [array_items].
  destruct vs as [|v2 vs].
  - cbn [List.map join] in *.
    rewrite (Hv level _ fuel) by lia. cbn [mbind option_bind].
    rewrite skip_ws_newline_indent, skip_ws_stop by reflexivity.
    reflexivity.
  - cbn [List.map] in *. rewrite join_cons_cons in *.
    rewrite !length_app in Hfuel. cbn [length] in Hfuel.
    rewrite <- !app_assoc.
    rewrite (Hv level _ fuel) by lia. cbn [mbind option_bind app].
    rewrite skip_ws_stop by reflexivity.
    change ((44 =? 93)%N) with false. change ((44 =? 44)%N) with true. cbn iota.
    rewrite skip_ws_newline_indent.
    rewrite skip_ws_opens.
    2:{ apply opens_value_app. cbn [join].
        destruct vs; [|apply opens_value_app]; apply iterencode_opens. }
    rewrite IH; [reflexivity | discriminate | lia].
Qed.

Lemma members_open sep level (kv : pystr * json) kvs tail :
  exists t',
    join sep (List.map (fun kv => encode_basestring (fst kv) ++ [58%N; 32%N] ++
                                  iterencode level (snd kv)) (kv :: kvs)) ++ tail
    = QUOTE :: t'.
Proof.
  destruct kvs; cbn [List.map join encode_basestring app]; eexists; reflexivity.
Qed.

Lemma members_opens sep level (kv : pystr * json) kvs tail :
  opens_value
    (join sep (List.map (fun kv => encode_basestring (fst kv) ++ [58%N; 32%N] ++
                                   iterencode level (snd kv)) (kv :: kvs)) ++ tail).
Proof.
  destruct (members_open sep level kv kvs tail) as [t' ->]. exists QUOTE, t'. auto.
Qed.

Lemma join_map_cons_cons {A} sep (f : A -> pystr) a b l :
  join sep (List.map f (a :: b :: l)) = f a ++ sep ++ join sep (List.map f (b :: l)).
Proof. reflexivity. Qed.

Lemma object_items_read level items :
  items <> [] ->
  Forall (fun kv => reads_back (snd kv)) items ->
  forall acc rest fuel,
    NoDup (List.map fst (acc ++ items)) ->
    let text :=
      join (44%N :: newline_indent level)
           (List.map (fun kv => encode_basestring (fst kv) ++ [58%N; 32%N] ++
                                iterencode level (snd kv)) items) in
    2 * length text + 1 < fuel ->
    object_items fuel acc (text ++ newline_indent (pred level) ++ 125%N :: rest)
    = Some (acc ++ items, rest).
Proof.
  intros Hne Hall.
  induction Hall as [|[k v] kvs Hv Hkvs IH]; [congruence|]. clear Hne.
  intros acc rest fuel Hdup text Hfuel. subst text.
  destruct fuel as [|fuel]; [lia|].
  assert (Hfresh : ~ In k (List.map fst acc)).
  { rewrite map_app in Hdup. cbn in Hdup.
    apply NoDup_app in Hdup. destruct Hdup as (_ & Hdisj & _).
    intros Hin. apply list_elem_of_In in Hin. apply (Hdisj k Hin). left. }
  assert (Hdup' : NoDup (List.map fst ((acc ++ [(k, v)]) ++ kvs))).
  { rewrite <- app_assoc. exact Hdup. }
  cbn [fst snd] in Hv.
  assert (Hkey : forall tail,
    object_items (S fuel) acc
      ((encode_basestring k ++ [58%N; 32%N] ++ iterencode level v) ++ tail)
    = '(v', rest1) ← scan_once fuel (iterencode level v ++ tail);
      match skip_ws rest1 with
      | [] => None
      | c2 :: r2 =>
          if (c2 =? 125)%N then Some (dict_set k v' acc, r2)
          else if (c2 =? 44)%N then
            object_items fuel (dict_set k v' acc) (skip_ws r2)
          else None
      end).
  { intros tail. unfold encode_basestring.
    cbn [object_items app]. change ((QUOTE =? QUOTE)%N) with true. cbn iota.
    rewrite <- !app_assoc. cbn [app].
    rewrite scanstring_escaped. cbn [mbind option_bind].
    rewrite skip_ws_stop by reflexivity.
    change ((58 =? 58)%N) with true. cbn iota.
    change (skip_ws (32%N :: iterencode level v ++ tail))
      with (skip_ws (iterencode level v ++ tail)).
    rewrite skip_ws_opens by (apply opens_value_app, iterencode_opens).
    reflexivity. }
  destruct kvs as [|kv2 kvs].
  - cbn [List.map join fst snd] in *.
    rewrite !length_app in Hfuel. cbn [length] in Hfuel.
    rewrite Hkey, (Hv level _ fuel) by lia. cbn [mbind option_bind].
    rewrite skip_ws_newline_indent, skip_ws_stop by reflexivity.
    change ((125 =? 125)%N) with true. cbn iota.
    rewrite dict_set_fresh by assumption. reflexivity.
  - specialize (IH ltac:(discriminate) (acc ++ [(k, v)]) rest fuel Hdup').
    rewrite join_map_cons_cons in *. cbn [fst snd] in *. cbn zeta in IH.
    set (text := join (44%N :: newline_indent level)
                      (List.map (fun kv => encode_basestring (fst kv) ++ [58%N; 32%N] ++
                                           iterencode level (snd kv)) (kv2 :: kvs))) in *.
    assert (Hopen : forall tail, opens_value (text ++ tail))
      by (intros tail; apply members_opens).
    clearbody text.
    rewrite !length_app in Hfuel. cbn [length] in Hfuel.
    rewrite <- (app_assoc _ _ (newline_indent _ ++ _)).
    rewrite Hkey, (Hv level _ fuel) by lia. cbn [mbind option_bind].
    rewrite <- !app_assoc. cbn [app].
    rewrite skip_ws_stop by reflexivity.
    change ((44 =? 125)%N) with false. change ((44 =? 44)%N) with true. cbn iota.
    rewrite skip_ws_newline_indent, skip_ws_opens by apply Hopen.
    rewrite dict_set_fresh by assumption.
    rewrite IH by lia. rewrite <- app_assoc. reflexivity.
Qed.

(** Every value with distinct keys is read back from its text. *)
Lemma scan_once_iterencode v : distinct_keys v -> reads_back v.
Proof.
  induction v as [s|items IH|items IH] using json_nested_ind; intros Hwf.
  - intros level rest fuel Hfuel. destruct fuel as [|fuel]; [lia|].
    rewrite iterencode_str. cbn [scan_once app].
    change ((QUOTE =? QUOTE)%N) with true. cbn iota.
    rewrite <- app_assoc. cbn [app]. rewrite scanstring_escaped. reflexivity.
  - apply distinct_keys_list in Hwf.
    assert (Hall : Forall reads_back items).
    { clear -IH Hwf. induction IH as [|x items Hx _ IHi]; [constructor|].
      inversion Hwf; subst. constructor; auto. }
    clear IH Hwf. intros level rest fuel Hfuel.
    destruct items as [|v vs].
    { destruct fuel as [|fuel]; [lia | reflexivity]. }
    rewrite iterencode_list in *. cbn [length] in Hfuel.
    rewrite !length_app in Hfuel.
    destruct fuel as [|fuel]; [lia|].
    cbn [scan_once app]. change ((91 =? QUOTE)%N) with false.
    change ((91 =? 91)%N) with true. cbn iota.
    rewrite <- !app_assoc, skip_ws_newline_indent. cbn [app].
    set (text := join (44%N :: newline_indent (S level))
                      (List.map (iterencode (S level)) (v :: vs))) in *.
    assert (Hopen : opens_value (text ++ newline_indent level ++ 93%N :: rest)).
    { apply opens_value_app. subst text. cbn [List.map join].
      destruct vs; [|apply opens_value_app]; apply iterencode_opens. }
    rewrite (skip_ws_opens _ Hopen).
    pose proof (array_items_read (S level) (v :: vs) rest fuel
                  ltac:(discriminate) Hall) as Hread.
    cbn [pred] in Hread. fold text in Hread.
    destruct Hopen as (c & t' & Heq & Hc). rewrite Heq in *.
    assert (Hc93 : (c =? 93)%N = false)
      by (destruct Hc as [-> | [-> | ->]]; reflexivity).
    rewrite Hc93, Hread by lia. reflexivity.
  - apply distinct_keys_dict in Hwf. destruct Hwf as [Hdup Hwf].
    assert (Hall : Forall (fun kv => reads_back (snd kv)) items).
    { clear -IH Hwf. induction IH as [|x items Hx _ IHi]; [constructor|].
      inversion Hwf; subst. constructor; auto. }
    clear IH Hwf. intros level rest fuel Hfuel.
    destruct items as [|kv kvs].
    { destruct fuel as [|fuel]; [lia | reflexivity]. }
    rewrite iterencode_dict in *.
    set (text := join (44%N :: newline_indent (S level))
                      (List.map (fun kv => encode_basestring (fst kv) ++ [58%N; 32%N] ++
                                           iterencode (S level) (snd kv)) (kv :: kvs))) in *.
    assert (Hopen : forall tail, exists t', text ++ tail = QUOTE :: t')
      by (intros tail; apply members_open).
    pose proof (object_items_read (S level) (kv :: kvs)
                  ltac:(discriminate) Hall [] rest) as Hread.
    cbn [pred] in Hread. cbv zeta in Hread. fold text in Hread.
    clearbody text.
    cbn [length] in Hfuel. rewrite !length_app in Hfuel.
    destruct fuel as [|fuel]; [lia|].
    cbn [scan_once app]. change ((123 =? QUOTE)%N) with false.
    change ((123 =? 91)%N) with false. change ((123 =? 123)%N) with true. cbn iota.
    rewrite <- !app_assoc, skip_ws_newline_indent. cbn [app].
    specialize (Hread fuel Hdup ltac:(lia)).
    destruct (Hopen (newline_indent level ++ 125%N :: rest)) as (t' & Heq).
    rewrite Heq in *.
    rewrite skip_ws_stop by reflexivity.
    change ((QUOTE =? 125)%N) with false. cbn iota.
    rewrite Hread. reflexivity.
Qed.

(** [loads] undoes [dumps]. *)
Lemma loads_dumps v : distinct_keys v -> loads (dumps v) = Some v.
Proof.
  intros Hwf. unfold loads, dumps.
  rewrite (skip_ws_opens _ (iterencode_opens 0 v)).
  rewrite <- (app_nil_r (iterencode 0 v)) at 2.
  rewrite (scan_once_iterencode v Hwf 0 []) by lia.
  reflexivity.
Qed.

(** *** Records *)

Lemma record_json_distinct_keys r : distinct_keys (record_json r).
Proof.
  unfold record_json. apply distinct_keys_dict. split.
  - apply (bool_decide_unpack _). vm_compute. exact I.
  - repeat constructor.
Qed.

Lemma records_json_distinct_keys records : distinct_keys (records_json records).
Proof.
  unfold records_json. apply distinct_keys_list.
  induction records as [|r records IH]; cbn; constructor;
    [apply record_json_distinct_keys | exact IH].
Qed.

Lemma record_of_record_json r : record_of_json (record_json r) = Some r.
Proof. destruct r. reflexivity. Qed.

Lemma records_of_records_json records :
  records_of_json (records_json records) = Some records.
Proof.
  unfold records_of_json, records_json.
  induction records as [|r records IH]; [reflexivity|].
  cbn [List.map mapM]. rewrite record_of_record_json. cbn [mbind option_bind].
  rewrite IH. reflexivity.
Qed.

Lemma escape_char_non_ascii c : (127 < c)%N -> escape_char c = [c].
Proof.
  intros Hc. unfold escape_char, BACKSLASH, QUOTE.
  repeat match goal with
         | |- context [(c =? ?k)%N] => destruct (N.eqb_spec c k); [lia|]
         end.
  destruct (N.ltb_spec c 32); [lia | reflexivity].
Qed.

(** C8: the JSON text written for a list of records (an array of
    objects with the members Date, Beach and Status, indented by two
    spaces, characters outside ASCII written as they are) parses back,
    and the parsed document gives back the Date, Beach and Status of
    every record, in order and character for character, whatever code
    points the strings hold. *)
Theorem C8_json_round_trip (records : list ParkingRecord) :
  loads (dumps (records_json records)) = Some (records_json records) /\
  loads (dumps (records_json records)) ≫= records_of_json = Some records /\
  (forall c, (127 < c)%N -> escape_char c = [c]).
Proof.
  rewrite (loads_dumps _ (records_json_distinct_keys records)).
  split; [reflexivity|]. split; [apply records_of_records_json|].
  apply escape_char_non_ascii.
Qed.

(** ** The properties on the sample runs *)

(** C2 on the sample page: one record, from the first container, and
    none from the container that lacks a name label. *)
Lemma C2_witness :
  exists records w',
    scrape_parking_status E_nodb (initial ∅) = (Return records, w') /\
    length records = 1 /\
    Forall (fun rec =>
              exists soup div b s,
                fetch_page E_nodb = Page soup /\
                In div (find_all_pla_linia soup) /\
                find_span is_beach_label div = Some b /\
                find_span is_status_label div = Some s /\
                Beach rec = get_text_strip b /\
                Status rec = get_text_strip s)
           records.
Proof.
  destruct (C2_records_come_from_both_labels E_nodb (initial ∅))
    as (records & w' & Hrun & Hfrom & Hcount).
  exists records, w'. split; [exact Hrun|]. split; [|exact Hfrom].
  exact (proj1 (Hcount sample_page eq_refl)).
Defined.

(** C3 on a GET that times out, on a 503 answer and on a page without
    containers. *)
Lemma C3_witness :
  (exists lg w',
     scrape_parking_status E_timeout (initial ∅) = (Return [], w') /\
     w_log w' = w_log (initial ∅) ++ lg /\
     In (ERROR, MsgFetchError (lit "Read timed out")) lg) /\
  (exists lg w',
     scrape_parking_status E_unavailable (initial ∅) = (Return [], w') /\
     w_log w' = w_log (initial ∅) ++ lg /\
     In (ERROR, MsgFetchError (lit "HTTPError")) lg) /\
  (exists lg w',
     scrape_parking_status E_no_containers (initial ∅) = (Return [], w') /\
     w_log w' = w_log (initial ∅) ++ lg /\
     Forall (fun e => fst e <> ERROR) lg) /\
  exit_status (fst (main E_timeout (initial ∅))) = 1%Z /\
  exit_status (fst (main E_no_containers (initial ∅))) = 1%Z.
Proof.
  destruct (C3_failed_fetch_and_empty_result_both_return_nil E_timeout (initial ∅))
    as (Hfail & _ & Hfail_exit & _).
  destruct (C3_failed_fetch_and_empty_result_both_return_nil E_no_containers (initial ∅))
    as (_ & Hempty & _ & Hempty_exit).
  split; [exact (Hfail (lit "Read timed out") eq_refl)|].
  split.
  { exact (proj1 (C3_failed_fetch_and_empty_result_both_return_nil
                    E_unavailable (initial ∅)) (lit "HTTPError") eq_refl). }
  split; [exact (Hempty empty_page eq_refl eq_refl)|].
  split.
  - exact (proj2 (Hfail_exit (lit "Read timed out") eq_refl)).
  - exact (proj2 (Hempty_exit empty_page eq_refl eq_refl)).
Defined.


(** C5 on the sample records, with a backend that stores them and one
    that confirms nothing. *)
Lemma C5_witness :
  (exists w',
     save_to_supabase E_json sample_client (extracted E_json 1) (initial ∅)
     = (Return true, w') /\
     w_inserts w' = [("parking_status"%string, to_db_records (extracted E_json 1))]) /\
  (exists w',
     save_to_supabase E_backend_silent sample_client (extracted E_json 1) (initial ∅)
     = (Return false, w') /\
     w_inserts w' = [("parking_status"%string, to_db_records (extracted E_json 1))]).
Proof.
  split.
  - destruct (C5_one_bulk_insert E_json sample_client (extracted E_json 1) (initial ∅))
      as (b & w' & Hrun & Hins & _ & _ & _ & _).
    exists w'. split; [|exact Hins].
    rewrite Hrun. f_equal. f_equal.
    pose proof (f_equal fst Hrun) as Hb. vm_compute in Hb. congruence.
  - destruct (C5_one_bulk_insert E_backend_silent sample_client (extracted E_json 1)
                (initial ∅))
      as (b & w' & Hrun & Hins & _ & _ & _ & Hsilent).
    exists w'. split; [|exact Hins].
    rewrite Hrun, (Hsilent eq_refl). reflexivity.
Defined.



(** * Further properties of the script *)

(** ** Stripping *)

Lemma lstrip_split s :
  exists pre, s = pre ++ lstrip s /\ forallb isspace pre = true.
Proof.
  induction s as [|c s (pre & Hs & Hpre)]; [exists []; auto|].
  cbn [lstrip]. destruct (isspace c) eqn:Hc.
  - exists (c :: pre). cbn. rewrite Hc, Hpre. split; [f_equal; exact Hs | reflexivity].
  - exists []. auto.
Qed.

Lemma lstrip_head s c t : lstrip s = c :: t -> isspace c = false.
Proof.
  induction s as [|a s IH]; [discriminate|]. cbn [lstrip].
  destruct (isspace a) eqn:Ha; [exact IH|]. intros [= <- _]. exact Ha.
Qed.

Lemma lstrip_nil s : lstrip s = [] <-> forallb isspace s = true.
Proof.
  induction s as [|a s IH]; cbn [lstrip forallb]; [tauto|].
  destruct (isspace a); cbn [andb]; [exact IH|].
  split; discriminate.
Qed.

Lemma last_rev_head {A} (l : list A) : last (rev l) = head l.
Proof. destruct l as [|a l]; [reflexivity|]. cbn [rev]. apply last_snoc. Qed.

Lemma rstrip_split s : exists suf, s = rstrip s ++ suf /\ forallb isspace suf = true.
Proof.
  unfold rstrip. destruct (lstrip_split (rev s)) as (pre & Hs & Hpre).
  exists (rev pre). split.
  - rewrite <- rev_app_distr, <- Hs, rev_involutive. reflexivity.
  - rewrite forallb_forall in *. intros x Hx. apply Hpre, in_rev. exact Hx.
Qed.

Lemma rstrip_last s c : last (rstrip s) = Some c -> isspace c = false.
Proof.
  unfold rstrip. rewrite last_rev_head.
  destruct (lstrip (rev s)) as [|a t] eqn:Hl; [discriminate|].
  intros [= <-]. exact (lstrip_head _ _ _ Hl).
Qed.

Lemma forallb_isspace_rev s : forallb isspace (rev s) = forallb isspace s.
Proof.
  apply eq_true_iff_eq. rewrite !forallb_forall.
  split; intros H x Hx; apply H; [apply -> in_rev | apply <- in_rev]; exact Hx.
Qed.

Lemma rstrip_nil s : rstrip s = [] <-> forallb isspace s = true.
Proof.
  unfold rstrip. rewrite <- forallb_isspace_rev, <- lstrip_nil.
  split; intros H.
  - apply (f_equal (@rev N)) in H. rewrite rev_involutive in H. exact H.
  - rewrite H. reflexivity.
Qed.

Lemma strip_nil s : strip s = [] <-> forallb isspace s = true.
Proof.
  unfold strip. rewrite rstrip_nil.
  destruct (lstrip_split s) as (pre & Hs & Hpre). split; intros H.
  - rewrite Hs, forallb_app, Hpre, H. reflexivity.
  - apply lstrip_nil in H. rewrite H. reflexivity.
Qed.

Lemma strip_trimmed s : trimmed (strip s).
Proof.
  unfold strip. split.
  - intros c t Hc. destruct (rstrip_split (lstrip s)) as (suf & Hs & _).
    rewrite Hc in Hs. exact (lstrip_head _ _ _ Hs).
  - apply rstrip_last.
Qed.

(** A concatenation of trimmed, non-empty pieces is trimmed. *)
Lemma concat_trimmed (pieces : list pystr) :
  Forall (fun p => p <> [] /\ trimmed p) pieces -> trimmed (List.concat pieces).
Proof.
  induction 1 as [|p pieces [Hne [Hhead Hlast]] _ [IHhead IHlast]]; cbn [List.concat].
  - split; [discriminate | discriminate].
  - split.
    + intros c t Hc. destruct p as [|a p]; [congruence|].
      injection Hc as <- _. exact (Hhead a p eq_refl).
    + intros c Hc. destruct (List.concat pieces) as [|b rest] eqn:Hrest.
      * rewrite app_nil_r in Hc. exact (Hlast c Hc).
      * rewrite last_app in Hc. cbn [last] in Hc.
        destruct (last (b :: rest)) as [c'|] eqn:Hl.
        -- injection Hc as <-. exact (IHlast c' eq_refl).
        -- apply last_None in Hl. discriminate.
Qed.

Lemma stripped_string_piece d p :
  stripped_string d = Some p -> p <> [] /\ trimmed p.
Proof.
  assert (Haux : forall s,
            match strip s with [] => None | a :: t => Some (a :: t) end = Some p ->
            p <> [] /\ trimmed p).
  { intros s. pose proof (strip_trimmed s) as Ht.
    destruct (strip s); [discriminate|]. intros [= <-]. split; [discriminate | exact Ht]. }
  destruct d; cbn [stripped_string]; try discriminate; apply Haux.
Qed.

Lemma get_text_strip_trimmed n : trimmed (get_text_strip n).
Proof.
  unfold get_text_strip. apply concat_trimmed, Forall_forall.
  intros p Hp. apply list_elem_of_omap in Hp. destruct Hp as (d & _ & Hd).
  exact (stripped_string_piece _ _ Hd).
Qed.

Lemma stripped_string_None d :
  stripped_string d = None <->
  match d with
  | NavigableString s | CData s => forallb isspace s = true
  | _ => True
  end.
Proof.
  assert (Haux : forall s,
            match strip s with [] => None | a :: t => Some (a :: t) end = @None pystr <->
            forallb isspace s = true).
  { intros s. rewrite <- strip_nil. destruct (strip s); split; congruence. }
  destruct d; cbn [stripped_string]; try apply Haux; tauto.
Qed.

Lemma get_text_strip_nil n : get_text_strip n = [] <-> no_visible_text n.
Proof.
  unfold get_text_strip, no_visible_text.
  induction (descendants n) as [|d ds IH]; cbn [omap list_omap List.concat].
  - split; [constructor | reflexivity].
  - change (omap stripped_string (d :: ds))
      with (match stripped_string d with
            | Some p => p :: omap stripped_string ds
            | None => omap stripped_string ds
            end).
    destruct (stripped_string d) as [p|] eqn:Hd.
    + destruct (stripped_string_piece _ _ Hd) as [Hne _]. split.
      * cbn [List.concat]. intros H. apply app_eq_nil in H. tauto.
      * intros H. inversion H as [|? ? Hd' _]; subst.
        apply stripped_string_None in Hd'. congruence.
    + rewrite IH. apply stripped_string_None in Hd. split.
      * intros H. constructor; assumption.
      * intros H. inversion H; assumption.
Qed.

Lemma extracted_fields E tick :
  Forall (fun r => exists b s, Beach r = get_text_strip b /\ Status r = get_text_strip s)
         (extracted E tick).
Proof.
  unfold extracted. destruct (fetch_page E) as [| |soup]; try constructor.
  apply Forall_forall. intros r Hr. apply list_elem_of_omap in Hr.
  destruct Hr as (div & _ & Hp). unfold paired in Hp.
  destruct (find_span is_beach_label div) as [b|]; [|discriminate].
  destruct (find_span is_status_label div) as [s|]; [|discriminate].
  injection Hp as <-. exists b, s. auto.
Qed.

(** X1: the name and the status of every record returned by
    [scrape_parking_status] are trimmed: neither begins nor ends with
    a whitespace character, whatever the page holds. *)
Theorem X1_fields_are_trimmed (E : environment) (w : world) :
  exists records w',
    scrape_parking_status E w = (Return records, w') /\
    Forall (fun r => trimmed (Beach r) /\ trimmed (Status r)) records.
Proof.
  destruct (scrape_run E w) as (lg & Hrun & _).
  eexists _, _. split; [exact Hrun|].
  eapply Forall_impl; [apply extracted_fields|].
  intros r (b & s & -> & ->). split; apply get_text_strip_trimmed.
Qed.

(** X2: on a page that was fetched and parsed, the name of a record is
    empty exactly when the name label of its container holds no text
    string with a character other than whitespace, and likewise the
    status: an empty field is never a default, it is what the label
    shows. *)
Theorem X2_empty_field_iff_blank_label
    (E : environment) (w : world) (r : response) (soup : node) :
  requests_get E SCRAPE_URL 10 = Done r ->
  is_error_status (status_code r) = false ->
  BeautifulSoup E (content r) = Done soup ->
  exists records w',
    scrape_parking_status E w = (Return records, w') /\
    Forall2 (fun rec div =>
               exists b s,
                 find_span is_beach_label div = Some b /\
                 find_span is_status_label div = Some s /\
                 (Beach rec = [] <-> no_visible_text b) /\
                 (Status rec = [] <-> no_visible_text s))
            records (List.filter has_both_labels (find_all_pla_linia soup)).
Proof.
  intros Hget Hst Hparse.
  destruct (scrape_run E w) as (lg & Hrun & _).
  eexists _, _. split; [exact Hrun|].
  unfold extracted. rewrite (fetch_page_ok _ _ _ Hget Hst Hparse).
  eapply Forall2_impl; [apply Forall2_paired|].
  intros rec div (b & s & Hb & Hs & ->). exists b, s. cbn [Beach Status].
  split; [exact Hb|]. split; [exact Hs|].
  split; apply get_text_strip_nil.
Qed.

(** X2 on the page whose two labels hold no text. *)
Lemma X2_witness :
  requests_get E_blank SCRAPE_URL 10
  = Done {| status_code := 200; content := lit "<html>" |} /\
  exists records w',
    scrape_parking_status E_blank (initial ∅) = (Return records, w') /\
    Forall2 (fun rec div =>
               exists b s,
                 find_span is_beach_label div = Some b /\
                 find_span is_status_label div = Some s /\
                 (Beach rec = [] <-> no_visible_text b) /\
                 (Status rec = [] <-> no_visible_text s))
            records (List.filter has_both_labels (find_all_pla_linia blank_page)).
Proof.
  split; [reflexivity|].
  exact (X2_empty_field_iff_blank_label E_blank (initial ∅)
           {| status_code := 200; content := lit "<html>" |} blank_page
           eq_refl eq_refl eq_refl).
Defined.

(** ** The identifier heuristics *)

Lemma startswith_iff p s :
  startswith p s = true <-> exists post, s = p ++ post.
Proof.
  revert s. induction p as [|a p IH]; intros s; cbn [startswith].
  - split; [intros _; exists s; reflexivity | reflexivity].
  - destruct s as [|b s].
    + split; [discriminate | intros [post H]; discriminate].
    + rewrite andb_true_iff, N.eqb_eq, IH. split.
      * intros [-> [post ->]]. exists post. reflexivity.
      * intros [post [= -> ->]]. split; [reflexivity | exists post; reflexivity].
Qed.

(** [py_in] is the substring relation. *)
Lemma py_in_iff needle hay :
  py_in needle hay = true <-> exists pre post, hay = pre ++ needle ++ post.
Proof.
  induction hay as [|c hay IH]; cbn [py_in]; rewrite orb_true_iff, startswith_iff.
  - split.
    + intros [[post H] | H]; [|discriminate]. exists [], post. exact H.
    + intros (pre & post & H). left.
      destruct pre; [exists post; exact H | discriminate].
  - rewrite IH. split.
    + intros [[post H] | (pre & post & ->)].
      * exists [], post. exact H.
      * exists (c :: pre), post. reflexivity.
    + intros (pre & post & H). destruct pre as [|a pre].
      * left. exists post. exact H.
      * right. injection H as -> ->. exists pre, post. reflexivity.
Qed.

Lemma py_in_suffix a b hay : py_in (a ++ b) hay = true -> py_in b hay = true.
Proof.
  rewrite !py_in_iff. intros (pre & post & ->).
  exists (pre ++ a), post. rewrite <- !app_assoc. reflexivity.
Qed.

Lemma beach_id_not_status_id x : beach_id x = true -> status_id x = false.
Proof.
  destruct x as [s|]; [|discriminate]. cbn [beach_id status_id].
  rewrite andb_true_iff. intros [_ Hin].
  change (lit "Content1_Label") with (lit "Content1_" ++ lit "Label") in Hin.
  apply py_in_suffix in Hin. rewrite Hin, andb_false_r. reflexivity.
Qed.

(** X3: the two identifier tests exclude each other: a node whose [id]
    is one string (as the parser gives it) and which passes for a name
    label, its [id] holding [Content1_Label], is never taken for a
    status label, so the two searches of a container never return the
    same node. *)
Theorem X3_name_label_is_no_status_label (n : node) :
  (node_attr "id" n = None \/ exists s, node_attr "id" n = Some (AttrStr s)) ->
  is_beach_label n = true ->
  is_status_label n = false.
Proof.
  unfold is_beach_label, is_status_label.
  intros Hid. rewrite andb_true_iff. intros [-> Hb]. cbn [andb].
  destruct Hid as [Hid | [s Hid]]; rewrite Hid in *; cbn [matches_fn] in *;
    exact (beach_id_not_status_id _ Hb).
Qed.

(** X3 on the name label of the sample page. *)
Lemma X3_witness :
  is_beach_label (span "ctl00_Content1_Label1" "Platja X") = true /\
  is_status_label (span "ctl00_Content1_Label1" "Platja X") = false.
Proof.
  split; [reflexivity|].
  apply X3_name_label_is_no_status_label; [|reflexivity].
  right. eexists. reflexivity.
Defined.

(** ** Containers inside containers *)

Lemma node_nested_ind (P : node -> Prop) :
  (forall s, P (NavigableString s)) ->
  (forall s, P (CData s)) ->
  (forall s, P (Comment s)) ->
  (forall name attrs cs, Forall P cs -> P (Tag name attrs cs)) ->
  forall n, P n.
Proof.
  intros HN HC HM HT. fix IH 1.
  intros [s|s|s|name attrs cs]; [apply HN | apply HC | apply HM |].
  apply HT. induction cs as [|c cs IHcs]; constructor; [apply IH | exact IHcs].
Qed.

Lemma in_descendants_tag x name attrs cs :
  In x (descendants (Tag name attrs cs)) <->
  exists c, In c cs /\ (x = c \/ In x (descendants c)).
Proof.
  cbn [descendants]. rewrite in_flat_map. split.
  - intros (c & Hc & [<- | Hx]); eauto.
  - intros (c & Hc & [-> | Hx]); exists c; cbn; auto.
Qed.

(** What is below a descendant is below the node. *)
Lemma descendants_trans d : forall c x,
  In c (descendants d) -> In x (descendants c) -> In x (descendants d).
Proof.
  induction d as [s|s|s|name attrs cs IH] using node_nested_ind;
    intros c x Hc Hx; try contradiction.
  apply in_descendants_tag in Hc. destruct Hc as (ch & Hch & Hc).
  apply in_descendants_tag. exists ch. split; [exact Hch|]. right.
  destruct Hc as [-> | Hc]; [exact Hx|].
  rewrite Forall_forall in IH.
  apply (IH ch (proj2 (list_elem_of_In _ _) Hch) c x Hc Hx).
Qed.

Lemma node_size_child c cs : In c cs -> node_size c <= list_sum (List.map node_size cs).
Proof.
  unfold list_sum. induction cs as [|a cs IH]; [contradiction|].
  cbn [List.map fold_right].
  intros [-> | Hc]; [lia | specialize (IH Hc); lia].
Qed.

Lemma descendants_smaller d : forall c,
  In c (descendants d) -> node_size c < node_size d.
Proof.
  induction d as [s|s|s|name attrs cs IH] using node_nested_ind;
    intros c Hc; try contradiction.
  apply in_descendants_tag in Hc. destruct Hc as (ch & Hch & Hc).
  pose proof (node_size_child _ _ Hch) as Hle. cbn [node_size].
  destruct Hc as [-> | Hc]; [lia|].
  rewrite Forall_forall in IH.
  specialize (IH ch (proj2 (list_elem_of_In _ _) Hch) c Hc). lia.
Qed.

Lemma existsb_descendants_mono p c d :
  In c (descendants d) ->
  existsb p (descendants c) = true -> existsb p (descendants d) = true.
Proof.
  intros Hc. rewrite !existsb_exists. intros (x & Hx & Hp).
  exists x. split; [exact (descendants_trans _ _ _ Hc Hx) | exact Hp].
Qed.

Lemma two_members_length {A} (l : list A) a b :
  In a l -> In b l -> a <> b -> 2 <= length l.
Proof.
  destruct l as [|x [|y l]]; cbn; try lia; try contradiction.
  intros [<- | []] [<- | []] H. congruence.
Qed.

(** X4: the label searches look at every level below a container, and
    so does the search for containers: when a container of class
    [PLA_linia] lies inside another one and holds both labels, the
    outer one holds them too, and the page yields a record for each of
    the two. *)
Theorem X4_nested_containers_both_yield
    (E : environment) (w : world) (r : response) (soup outer inner : node) :
  requests_get E SCRAPE_URL 10 = Done r ->
  is_error_status (status_code r) = false ->
  BeautifulSoup E (content r) = Done soup ->
  In outer (find_all_pla_linia soup) ->
  In inner (descendants outer) ->
  is_pla_linia inner = true ->
  has_both_labels inner = true ->
  has_both_labels outer = true /\
  In inner (find_all_pla_linia soup) /\
  exists records w',
    scrape_parking_status E w = (Return records, w') /\
    2 <= length records.
Proof.
  intros Hget Hst Hparse Houter Hinner Hcls Hboth.
  unfold find_all_pla_linia in *. rewrite filter_In in Houter.
  destruct Houter as [Houter Hocls].
  assert (Ho : has_both_labels outer = true).
  { unfold has_both_labels in *. rewrite andb_true_iff in *.
    destruct Hboth as [H1 H2].
    split; eapply existsb_descendants_mono; eassumption. }
  assert (Hi : In inner (List.filter is_pla_linia (descendants soup))).
  { apply filter_In. split; [|exact Hcls]. exact (descendants_trans _ _ _ Houter Hinner). }
  split; [exact Ho|]. split; [exact Hi|].
  destruct (scrape_run E w) as (lg & Hrun & _).
  eexists _, _. split; [exact Hrun|].
  unfold extracted. rewrite (fetch_page_ok _ _ _ Hget Hst Hparse).
  rewrite length_omap_paired. unfold find_all_pla_linia.
  apply two_members_length with (a := outer) (b := inner).
  - apply filter_In. split; [|exact Ho]. apply filter_In. auto.
  - apply filter_In. split; [exact Hi | exact Hboth].
  - intros ->. apply descendants_smaller in Hinner. lia.
Qed.

(** X4 on a page with one container inside another. *)
Lemma X4_witness :
  exists records w',
    scrape_parking_status E_nested (initial ∅) = (Return records, w') /\
    2 <= length records.
Proof.
  refine (proj2 (proj2
    (X4_nested_containers_both_yield E_nested (initial ∅)
       {| status_code := 200; content := lit "<html>" |} nested_page
       (pla_linia [pla_linia [span "ctl00_Content1_Label1" "Platja X";
                              span "ctl00_Content1_lbEstat1" "Tancada"]])
       (pla_linia [span "ctl00_Content1_Label1" "Platja X";
                   span "ctl00_Content1_lbEstat1" "Tancada"])
       eq_refl eq_refl eq_refl _ _ eq_refl eq_refl))).
  - vm_compute. left. reflexivity.
  - vm_compute. left. reflexivity.
Defined.

(** ** Client set-up *)

(** X5: [setup_supabase] never raises and changes nothing but the log,
    to which it adds one entry.  It hands back a client exactly when
    both credential variables are set to non-empty strings and
    [create_client] returns one: an empty variable counts as a missing
    one, and a [create_client] that raises is answered by [None] and an
    ERROR entry, like missing credentials. *)
Theorem X5_setup_supabase_answer (E : environment) (w : world) :
  exists result entry,
    setup_supabase E w = (Return result, logged [entry] w) /\
    (forall c,
       result = Some c <->
       exists url key,
         environ E !! "SUPABASE_URL"%string = Some url /\ url <> [] /\
         environ E !! "SUPABASE_KEY"%string = Some key /\ key <> [] /\
         create_client E url key = Done c) /\
    (result = None -> fst entry = ERROR) /\
    (is_Some result -> entry = (INFO, MsgSupabaseInitialized)).
Proof.
  unfold setup_supabase. py_run.
  destruct (environ E !! "SUPABASE_URL"%string) as [[|a url]|].
  1,3: exists None; eexists; split; [reflexivity|];
       split; [|split; [reflexivity | intros [? [=]]]];
       intros c; split; [discriminate|];
       intros (u & k & [= <-] & Hu & _); congruence.
  destruct (environ E !! "SUPABASE_KEY"%string) as [[|b key]|].
  1,3: exists None; eexists; split; [reflexivity|];
       split; [|split; [reflexivity | intros [? [=]]]];
       intros c; split; [discriminate|];
       intros (u & k & _ & _ & [= <-] & Hk & _); congruence.
  destruct (create_client E (a :: url) (b :: key)) as [client|cause] eqn:Hc; py_run.
  - exists (Some client). eexists. split; [reflexivity|].
    split; [|split; [discriminate | reflexivity]].
    intros c. split.
    + intros [= <-]. exists (a :: url), (b :: key). repeat split; try discriminate.
      exact Hc.
    + intros (u & k & [= <-] & _ & [= <-] & _ & Hc'). congruence.
  - exists None. eexists. split; [reflexivity|].
    split; [|split; [reflexivity | intros [? [=]]]].
    intros c. split; [discriminate|].
    intros (u & k & [= <-] & _ & [= <-] & _ & Hc'). congruence.
Qed.

(** ** The answer of [save_to_supabase] *)

Lemma row_complete_iff row :
  row_complete row = true <->
  is_Some (row !! "beach_name"%string) /\
  is_Some (row !! "status"%string) /\
  is_Some (row !! "recorded_at"%string).
Proof.
  unfold row_complete. rewrite !andb_true_iff, !bool_decide_eq_true. tauto.
Qed.

(** X6: [save_to_supabase] never raises, and apart from the log and the
    one insert it changes nothing.  It answers true exactly when the
    backend hands back at least one row and every row handed back has
    the columns [beach_name], [status] and [recorded_at]: a row lacking
    one of them stops the loop that logs the saved rows, and the answer
    is false although the insert went through. *)
Theorem X6_save_to_supabase_answer
    (E : environment) (c : Client) (parking_data : list ParkingRecord) (w : world) :
  exists b w',
    save_to_supabase E c parking_data w = (Return b, w') /\
    (b = true <->
     exists rows,
       insert_execute E c "parking_status" (to_db_records parking_data) = Done rows /\
       rows <> [] /\
       Forall (fun row => is_Some (row !! "beach_name"%string) /\
                          is_Some (row !! "status"%string) /\
                          is_Some (row !! "recorded_at"%string)) rows) /\
    w_ticks w' = w_ticks w /\
    w_stdout w' = w_stdout w /\
    w_files w' = w_files w /\
    w_gets w' = w_gets w.
Proof.
  destruct (save_run E c parking_data w) as [lg Hrun].
  eexists _, _. split; [exact Hrun|]. cbn [w_ticks w_stdout w_files w_gets].
  split; [|auto]. unfold confirmed.
  destruct (insert_execute E c "parking_status" (to_db_records parking_data))
    as [[|row rows]|cause].
  - split; [discriminate|]. intros (rows & [= <-] & Hne & _). congruence.
  - rewrite forallb_forall. split.
    + intros Hall. eexists. split; [reflexivity|]. split; [discriminate|].
      apply Forall_forall. intros x Hx. apply row_complete_iff, Hall.
      apply list_elem_of_In. exact Hx.
    + intros (rows' & [= <-] & _ & Hall) x Hx. apply row_complete_iff.
      rewrite Forall_forall in Hall. apply Hall, list_elem_of_In. exact Hx.
  - split; [discriminate|]. intros (rows & [=] & _).
Qed.

(** X6 on a backend that hands back a row without [status]. *)
Lemma X6_witness :
  exists w',
    save_to_supabase E_backend_partial sample_client (extracted E_json 1) (initial ∅)
    = (Return false, w') /\
    w_inserts w' = [("parking_status"%string, to_db_records (extracted E_json 1))].
Proof.
  destruct (X6_save_to_supabase_answer E_backend_partial sample_client
              (extracted E_json 1) (initial ∅))
    as (b & w' & Hrun & Hb & _).
  exists w'. split.
  - rewrite Hrun. destruct b; [|reflexivity]. exfalso.
    destruct (proj1 Hb eq_refl) as (rows & Hrows & _ & Hall).
    injection Hrows as <-. inversion Hall as [|? ? (_ & [v Hv] & _) _]; subst.
    vm_compute in Hv. discriminate.
  - pose proof (f_equal (fun p => w_inserts (snd p)) Hrun) as Hins.
    cbn [snd] in Hins. rewrite <- Hins. vm_compute. reflexivity.
Defined.

(** ** What [scrape_parking_status] does and does not *)


(** X8: an exception raised by the parser is caught like a failed
    fetch: [scrape_parking_status] logs it at level ERROR, as an error
    of processing, returns the empty list, and the driver exits with
    status 1. *)
Theorem X8_parser_exception_is_caught
    (E : environment) (w : world) (r : response) (cause : pystr) :
  requests_get E SCRAPE_URL 10 = Done r ->
  is_error_status (status_code r) = false ->
  BeautifulSoup E (content r) = Throws cause ->
  (exists lg w',
     scrape_parking_status E w = (Return [], w') /\
     w_log w' = w_log w ++ lg /\
     In (ERROR, MsgProcessError cause) lg) /\
  fst (main E w) = Raise (SystemExit 1).
Proof.
  intros Hget Hst Hparse.
  assert (Hpage : fetch_page E = ParseFailed cause).
  { unfold fetch_page. rewrite Hget, Hst, Hparse. reflexivity. }
  split.
  - destruct (scrape_run E w) as (lg & Hrun & Hlog). unfold scrape_log in Hlog.
    rewrite Hpage in Hlog. exists lg. eexists. rewrite Hrun.
    unfold extracted. rewrite Hpage. auto.
  - apply main_exit_of_no_records. unfold extracted. rewrite Hpage. reflexivity.
Qed.

(** X8 on a run whose parser raises. *)
Lemma X8_witness :
  (exists lg w',
     scrape_parking_status E_parse_error (initial ∅) = (Return [], w') /\
     w_log w' = w_log (initial ∅) ++ lg /\
     In (ERROR, MsgProcessError (lit "unexpected end of data")) lg) /\
  fst (main E_parse_error (initial ∅)) = Raise (SystemExit 1).
Proof.
  exact (X8_parser_exception_is_caught E_parse_error (initial ∅)
           {| status_code := 200; content := lit "<html>" |}
           (lit "unexpected end of data") eq_refl eq_refl eq_refl).
Defined.

(** ** One log line per container *)

Lemma for_enumerate_entries {A St} (body : nat -> A -> St -> Py St)
    (f : A -> St -> St) (g : nat -> A -> level * message) :
  (forall i x acc w, body i x acc w = (Return (f x acc), logged [g i x] w)) ->
  forall l i acc w,
    for_enumerate i l body acc w
    = (Return (fold_left (fun a x => f x a) l acc),
       logged (imap (fun j x => g (i + j) x) l) w).
Proof.
  intros Hbody. induction l as [|x l IH]; intros i acc w; cbn [for_enumerate imap fold_left].
  - rewrite logged_nil. reflexivity.
  - rewrite (bind_return _ _ _ _ _ (Hbody i x acc w)), IH, logged_logged.
    cbn [app]. rewrite Nat.add_0_r. do 3 f_equal.
    apply imap_ext. intros j y _. cbn. f_equal. lia.
Qed.

Lemma warnings_and_records now (l : list node) i :
  length (List.filter is_warning (imap (fun j d => container_entry now (i + j) d) l)) +
  length (omap (paired now) l) = length l.
Proof.
  revert i. induction l as [|d l IH]; intros i; [reflexivity|].
  cbn [imap]. change (omap (paired now) (d :: l))
    with (match paired now d with
          | Some r => r :: omap (paired now) l
          | None => omap (paired now) l
          end).
  assert (Hshift : imap ((fun j x => container_entry now (i + j) x) ∘ S) l
                   = imap (fun j x => container_entry now (S i + j) x) l).
  { apply imap_ext. intros j y _. cbn. f_equal. lia. }
  rewrite Hshift. specialize (IH (S i)).
  unfold container_entry at 1. destruct (paired now d); cbn in *; lia.
Qed.

(** X9: when the page has containers, [scrape_parking_status] logs the
    address, the status, the number of containers, then one line per
    container in document order, carrying its position counted from 1
    (an INFO line with the two texts when the container gave a record,
    a WARNING line when it was skipped), and last the number of
    records; the warnings and the records together are as many as the
    containers, so no container is skipped without a warning.  When the
    page has no container, the log ends with one warning saying so. *)
Theorem X9_one_log_line_per_container
    (E : environment) (w : world) (r : response) (soup : node) :
  requests_get E SCRAPE_URL 10 = Done r ->
  is_error_status (status_code r) = false ->
  BeautifulSoup E (content r) = Done soup ->
  let containers := find_all_pla_linia soup in
  let lines := imap (container_entry (now_isoformat (clock E (w_ticks w)))) containers in
  exists records w',
    scrape_parking_status E w = (Return records, w') /\
    w_log w'
    = w_log w ++
      [(INFO, MsgFetching SCRAPE_URL); (INFO, MsgFetched (status_code r))] ++
      match containers with
      | [] => [(WARNING, MsgNoDivs)]
      | _ :: _ =>
          [(INFO, MsgFoundDivs (length containers))] ++ lines ++
          [(INFO, MsgParsedRecords (length records))]
      end /\
    length (List.filter is_warning lines) + length records = length containers.
Proof.
  intros Hget Hst Hparse containers lines. subst lines containers.
  set (now := now_isoformat (clock E (w_ticks w))).
  assert (Hcount := warnings_and_records now (find_all_pla_linia soup) 0).
  cbn [Nat.add] in Hcount.
  change (fun j d => container_entry now j d) with (container_entry now) in Hcount.
  unfold is_error_status in Hst.
  unfold scrape_parking_status. fold SCRAPE_URL. py_run.
  rewrite Hget. py_run. rewrite Hst. py_run. rewrite Hparse. py_run.
  destruct (find_all_pla_linia soup) as [|d divs] eqn:Hdivs; py_run.
  { eexists _, _. split; [reflexivity|]. cbn [w_log]. rewrite <- !app_assoc.
    split; reflexivity. }
  fold now.
  match goal with
  | |- context [for_enumerate 0 ?ds ?b ?a0 ?w0] =>
      rewrite (for_enumerate_entries b
                 (fun d acc => acc ++ from_option (fun r => [r]) [] (paired now d))
                 (container_entry now)) with (l := ds) (i := 0) (acc := a0) (w := w0)
  end.
  2:{ intros i x acc w0. unfold container_entry, paired.
      destruct (find_span is_beach_label x), (find_span is_status_label x); py_run;
        cbn [from_option Beach Status]; rewrite ?(app_nil_r acc); reflexivity. }
  rewrite fold_left_paired. py_run. cbn [app Nat.add].
  change (fun j x => container_entry now j x) with (container_entry now).
  eexists _, _. split; [reflexivity|]. cbn [w_log].
  split; [rewrite <- !app_assoc; reflexivity | exact Hcount].
Qed.

(** X9 on the sample page: one record, one warning. *)
Lemma X9_witness :
  exists records w',
    scrape_parking_status E_nodb (initial ∅) = (Return records, w') /\
    w_log w'
    = [(INFO, MsgFetching SCRAPE_URL); (INFO, MsgFetched 200);
       (INFO, MsgFoundDivs 2);
       (INFO, MsgParsedBeach 1 (lit "Platja X") (lit "Tancada"));
       (WARNING, MsgLabelNotFound 2);
       (INFO, MsgParsedRecords (length records))] /\
    1 + length records = 2.
Proof.
  exact (X9_one_log_line_per_container E_nodb (initial ∅)
           {| status_code := 200; content := lit "<html>" |} sample_page
           eq_refl eq_refl eq_refl).
Defined.

(** ** The driver: what a failed run leaves behind *)

Lemma ends_here {A} (base : list A) x : exists lg, base ++ [x] = base ++ lg ++ [x].
Proof. exists []. reflexivity. Qed.

Lemma ends_grow {A} (base a full : list A) x :
  (exists lg, full = (base ++ a) ++ lg ++ [x]) -> exists lg, full = base ++ lg ++ [x].
Proof. intros [lg ->]. exists (a ++ lg). rewrite <- !app_assoc. reflexivity. Qed.

Ltac ends_with :=
  first [ apply ends_here
        | eapply ends_grow; first [ apply ends_here
        | eapply ends_grow; first [ apply ends_here
        | eapply ends_grow; first [ apply ends_here
        | eapply ends_grow; first [ apply ends_here
        | eapply ends_grow; apply ends_here ]]]]].

(** The last log entry of a run that leaves by [sys.exit(1)]. *)
Lemma main_last_entry E w :
  let records := extracted E (S (w_ticks w)) in
  let lg_all := w_log (snd (main E w)) in
  (records = [] ->
   exists lg, lg_all = w_log w ++ lg ++ [(ERROR, MsgNoParkingData)]) /\
  (records <> [] -> save_to_db E = true -> client_for E = None ->
   exists lg, lg_all = w_log w ++ lg ++ [(ERROR, MsgSkippingSave)]) /\
  (records <> [] -> save_to_db E = true ->
   forall c, client_for E = Some c -> confirmed E c records = false ->
   exists lg, lg_all = w_log w ++ lg ++ [(ERROR, MsgSaveFailed)]).
Proof.
  intros records lg_all. subst records lg_all.
  destruct (main E w) as [o w'] eqn:Hmain. cbn [snd].
  unfold main in Hmain. fold (save_to_db E) in Hmain.
  rewrite bind_run, logger_run, bind_run in Hmain. unfold read_clock at 1 in Hmain.
  cbn [logged w_ticks w_log w_stdout w_files w_gets w_inserts] in Hmain.
  rewrite bind_run, logger_run in Hmain.
  cbn [logged w_ticks w_log w_stdout w_files w_gets w_inserts] in Hmain.
  rewrite bind_run in Hmain.
  match type of Hmain with
  | context [scrape_parking_status E ?w0] =>
      destruct (scrape_run E w0) as (lg1 & Hs & _); rewrite Hs in Hmain; clear Hs
  end.
  cbn [logged w_ticks w_log w_stdout w_files w_gets w_inserts] in Hmain.
  revert Hmain. generalize (extracted E (S (w_ticks w))). intros records Hmain.
  destruct records as [|r0 rs].
  { py_run in Hmain. injection Hmain as <- <-. cbn [w_log].
    split; [intros _; ends_with|]. split; intros H; congruence. }
  set (records := r0 :: rs) in *.
  split; [discriminate|].
  rewrite bind_run in Hmain. cbn [mret Py_ret] in Hmain. rewrite bind_run in Hmain.
  destruct (save_to_db E); [|split; intros _ [=]].
  rewrite bind_run in Hmain.
  match type of Hmain with
  | context [setup_supabase E ?w0] =>
      destruct (setup_run E w0) as [lg2 Hset]; rewrite Hset in Hmain; clear Hset
  end.
  destruct (client_for E) as [c|].
  - split; [intros _ _ [=]|]. intros _ _ c' [= <-] Hconf.
    rewrite bind_run in Hmain.
    match type of Hmain with
    | context [save_to_supabase E c records ?w0] =>
        destruct (save_run E c records w0) as [lg3 Hsave];
        rewrite Hsave in Hmain; clear Hsave
    end.
    rewrite Hconf in Hmain. py_run in Hmain. cbn [negb] in Hmain.
    injection Hmain as <- <-. cbn [w_log]. ends_with.
  - split; [|intros _ _ c' [=]]. intros _ _ _.
    py_run in Hmain. injection Hmain as <- <-. cbn [w_log]. ends_with.
Qed.

(** X10: every [sys.exit(1)] of the driver is announced: a run that
    leaves by [SystemExit] leaves with code 1 and its last log entry is
    at level ERROR and names the reason: no data, no client, or a save
    that was not confirmed. *)
Theorem X10_exit_is_logged (E : environment) (w : world) :
  let records := extracted E (S (w_ticks w)) in
  let lg_all := w_log (snd (main E w)) in
  (records = [] ->
   exists lg, lg_all = w_log w ++ lg ++ [(ERROR, MsgNoParkingData)]) /\
  (records <> [] -> save_to_db E = true -> client_for E = None ->
   exists lg, lg_all = w_log w ++ lg ++ [(ERROR, MsgSkippingSave)]) /\
  (records <> [] -> save_to_db E = true ->
   forall c, client_for E = Some c -> confirmed E c records = false ->
   exists lg, lg_all = w_log w ++ lg ++ [(ERROR, MsgSaveFailed)]) /\
  (forall code,
     fst (main E w) = Raise (SystemExit code) ->
     code = 1%Z /\ exists lg m, lg_all = w_log w ++ lg ++ [(ERROR, m)]).
Proof.
  intros records lg_all.
  destruct (main_last_entry E w) as (Hnone & Hskip & Hfail).
  fold records lg_all in Hnone, Hskip, Hfail.
  split; [exact Hnone|]. split; [exact Hskip|]. split; [exact Hfail|].
  intros code. destruct (main_run E w) as (lg & ticks & ->). fold records. cbn [fst].
  unfold main_outcome, steps_succeed, persistence_ok, orchestrator_mode.
  destruct records as [|r0 rs] eqn:Hrec.
  { intros [= <-]. split; [reflexivity|]. destruct (Hnone eq_refl) as [lg' ->]. eauto. }
  assert (Hne : r0 :: rs <> []) by discriminate.
  assert (Hok : forall o : outcome unit,
            (if truthy_opt (environ E !! "GITHUB_ACTIONS"%string)
             then match environ E !! "GITHUB_STEP_SUMMARY"%string with
                  | Some path => if unwritable E path then Raise (OSError path) else Return ()
                  | None => Raise (KeyError "GITHUB_STEP_SUMMARY")
                  end
             else Return ()) = Raise (SystemExit code) -> False).
  { intros _. destruct (truthy_opt _); [|discriminate].
    destruct (environ E !! "GITHUB_STEP_SUMMARY"%string) as [path|]; [|discriminate].
    destruct (unwritable E path); discriminate. }
  destruct (save_to_db E) eqn:Hdb.
  - destruct (client_for E) as [c|] eqn:Hc.
    + destruct (confirmed E c (r0 :: rs)) eqn:Hconf.
      * intros H. destruct (Hok (Return ()) H).
      * intros [= <-]. split; [reflexivity|].
        destruct (Hfail Hne eq_refl c eq_refl Hconf) as [lg' ->]. eauto.
    + intros [= <-]. split; [reflexivity|].
      destruct (Hskip Hne eq_refl eq_refl) as [lg' ->]. eauto.
  - intros H. destruct (Hok (Return ()) H).
Qed.

(** X10 on a run whose GET times out and on one without credentials. *)
Lemma X10_witness :
  (exists lg,
     w_log (snd (main E_timeout (initial ∅)))
     = w_log (initial ∅) ++ lg ++ [(ERROR, MsgNoParkingData)]) /\
  (exists lg,
     w_log (snd (main E_no_credentials (initial ∅)))
     = w_log (initial ∅) ++ lg ++ [(ERROR, MsgSkippingSave)]).
Proof.
  split.
  - exact (proj1 (X10_exit_is_logged E_timeout (initial ∅)) eq_refl).
  - refine (proj1 (proj2 (X10_exit_is_logged E_no_credentials (initial ∅)))
              _ eq_refl eq_refl).
    discriminate.
Defined.

(** X11: when persistence is requested and does not go through (no
    client, or a save that is not confirmed), the driver stops there:
    it exits with status 1, the JSON text is not printed even with
    [--json], and no summary is written. *)
Theorem X11_failed_persistence_stops_the_run (E : environment) (w : world) :
  let records := extracted E (S (w_ticks w)) in
  save_to_db E = true ->
  client_for E = None \/
  (exists c, client_for E = Some c /\ confirmed E c records = false) ->
  fst (main E w) = Raise (SystemExit 1) /\
  w_stdout (snd (main E w)) = w_stdout w /\
  w_files (snd (main E w)) = w_files w.
Proof.
  intros records Hdb Hfail.
  assert (Hsteps : steps_succeed E records = false).
  { unfold steps_succeed, persistence_ok. rewrite Hdb.
    destruct records; [reflexivity|].
    destruct Hfail as [-> | (c & -> & ->)]; reflexivity. }
  destruct (main_run E w) as (lg & ticks & ->). fold records.
  cbn [fst snd w_stdout w_files].
  unfold main_outcome, main_stdout, main_files. rewrite Hsteps. cbn [andb].
  rewrite app_nil_r. auto.
Qed.

(** X11 on a run with [--json] whose backend confirms no row. *)
Lemma X11_witness :
  output_json E_backend_silent = true /\
  fst (main E_backend_silent (initial ∅)) = Raise (SystemExit 1) /\
  w_stdout (snd (main E_backend_silent (initial ∅))) = [] /\
  w_files (snd (main E_backend_silent (initial ∅))) = ∅.
Proof.
  split; [reflexivity|].
  apply (X11_failed_persistence_stops_the_run E_backend_silent (initial ∅) eq_refl).
  right. exists sample_client. split; reflexivity.
Defined.

(** X12: a run issues exactly one GET, whatever comes of it, and at
    most one insert; it issues no insert when no record was extracted
    and none when the client could not be set up. *)
Theorem X12_one_get_at_most_one_insert (E : environment) (w : world) :
  let records := extracted E (S (w_ticks w)) in
  w_gets (snd (main E w)) = w_gets w ++ [(SCRAPE_URL, 10)] /\
  exists issued,
    w_inserts (snd (main E w)) = w_inserts w ++ issued /\
    length issued <= 1 /\
    (records = [] -> issued = []) /\
    (client_for E = None -> issued = []) /\
    (forall ins, In ins issued -> ins = ("parking_status"%string, to_db_records records)).
Proof.
  intros records. destruct (main_run E w) as (lg & ticks & ->). fold records.
  cbn [snd w_gets w_inserts]. split; [reflexivity|].
  exists (main_inserts E records). split; [reflexivity|].
  unfold main_inserts. destruct records as [|r0 rs].
  { cbn. repeat split; auto; contradiction. }
  destruct (save_to_db E); [|cbn; repeat split; auto; contradiction].
  destruct (client_for E) as [c|]; cbn.
  - repeat split; auto; try discriminate. intros ins [<- | []]. reflexivity.
  - repeat split; auto; contradiction.
Qed.





(** ** Without persistence *)

Lemma fetch_page_same E1 E2 :
  requests_get E1 = requests_get E2 ->
  BeautifulSoup E1 = BeautifulSoup E2 ->
  fetch_page E1 = fetch_page E2.
Proof. intros Hget Hparse. unfold fetch_page. rewrite Hget, Hparse. reflexivity. Qed.

(** X15: with [--no-db] the credentials and the backend play no part:
    two runs that differ only in the variables [SUPABASE_URL] and
    [SUPABASE_KEY], in what [create_client] does and in what the
    backend answers end the same way, print the same text, leave the
    same files and issue no insert. *)
Theorem X15_no_db_ignores_credentials_and_backend
    (E1 E2 : environment) (w : world) :
  list_contains (lit "--no-db") (argv E1) = true ->
  argv E1 = argv E2 ->
  requests_get E1 = requests_get E2 ->
  BeautifulSoup E1 = BeautifulSoup E2 ->
  clock E1 = clock E2 ->
  unwritable E1 = unwritable E2 ->
  environ E1 !! "GITHUB_ACTIONS"%string = environ E2 !! "GITHUB_ACTIONS"%string ->
  environ E1 !! "GITHUB_STEP_SUMMARY"%string = environ E2 !! "GITHUB_STEP_SUMMARY"%string ->
  fst (main E1 w) = fst (main E2 w) /\
  w_stdout (snd (main E1 w)) = w_stdout (snd (main E2 w)) /\
  w_files (snd (main E1 w)) = w_files (snd (main E2 w)) /\
  w_inserts (snd (main E1 w)) = w_inserts w /\
  w_inserts (snd (main E2 w)) = w_inserts w.
Proof.
  intros Hflag Hargv Hget Hparse Hclock Hro Hga Hpath.
  assert (Hpage := fetch_page_same E1 E2 Hget Hparse).
  assert (Hrec : extracted E1 (S (w_ticks w)) = extracted E2 (S (w_ticks w))).
  { unfold extracted. rewrite Hpage, Hclock. reflexivity. }
  assert (Hreads : clock_reads E1 = clock_reads E2).
  { unfold clock_reads. rewrite Hpage. reflexivity. }
  assert (Hdb1 : save_to_db E1 = false) by (unfold save_to_db; rewrite Hflag; reflexivity).
  assert (Hdb2 : save_to_db E2 = false)
    by (unfold save_to_db; rewrite <- Hargv, Hflag; reflexivity).
  destruct (main_run E1 w) as (lg1 & t1 & ->).
  destruct (main_run E2 w) as (lg2 & t2 & ->).
  cbn [fst snd w_stdout w_files w_inserts].
  unfold main_outcome, main_stdout, main_files, main_inserts, steps_succeed,
    persistence_ok, orchestrator_mode, output_json.
  rewrite Hdb1, Hdb2, <- Hrec, <- Hreads, <- Hga, <- Hpath, <- Hro, <- Hclock, <- Hargv.
  destruct (extracted E1 (S (w_ticks w))); rewrite ?app_nil_r; auto.
Qed.

(** X15 on the sample run with [--no-db], against a backend that raises. *)
Lemma X15_witness :
  fst (main E_nodb (initial ∅))
  = fst (main (with_backend E_nodb (Throws (lit "connection refused"))) (initial ∅)) /\
  w_stdout (snd (main E_nodb (initial ∅)))
  = w_stdout (snd (main (with_backend E_nodb (Throws (lit "connection refused")))
                        (initial ∅))) /\
  w_files (snd (main E_nodb (initial ∅)))
  = w_files (snd (main (with_backend E_nodb (Throws (lit "connection refused")))
                       (initial ∅))) /\
  w_inserts (snd (main E_nodb (initial ∅))) = [] /\
  w_inserts (snd (main (with_backend E_nodb (Throws (lit "connection refused")))
                       (initial ∅))) = [].
Proof.
  apply (X15_no_db_ignores_credentials_and_backend E_nodb
           (with_backend E_nodb (Throws (lit "connection refused"))) (initial ∅));
    reflexivity.
Defined.
